(** * FTP2NetDrive: the secure bootstrap of [ftp_server.py]

    A shallow embedding of [src/ftp_server.py]: the cached pyOpenSSL context
    of [ConfiguredFTPHandler.get_ssl_context], the manual handshake loop of
    [ConfiguredFTPHandler.__init__] and the startup sequence of [main].

    Python objects that the program shares and mutates (the handler class
    and its attributes) are an explicit state that every call threads
    through; calls into the libraries (pyOpenSSL, pyftpdlib, [select],
    [os.path]) are answered by an environment and recorded as events of a
    trace, in program order. *)

From Stdlib Require Import ZArith.
From stdpp Require Import gmap strings list.

Local Open Scope Z_scope.
Local Open Scope nat_scope.

(** ** Python values *)

(** Truth value of an optional string argument: [None] and the empty string
    are false. *)
Definition truthy (s : option string) : bool :=
  match s with
  | None => false
  | Some s => negb (String.eqb s "")
  end.

(** The exceptions the program meets; all of them derive from [Exception]. *)
Inductive Exn :=
| WantReadError
| WantWriteError
| SSLError (cause : string)
| TimeoutError
| RuntimeError
| TypeError
| OSError
| ValueError.

(** How a call ends. *)
Inductive Completion :=
| Returned
| Raised (e : Exn).

(** ** pyOpenSSL *)

(** The option constants of the OpenSSL build in use, and the options a
    fresh context starts with. Their values belong to the library. *)
Class OpenSSL := {
  OP_NO_SSLv2 : Z;
  OP_NO_SSLv3 : Z;
  OP_NO_TLSv1 : Z;
  OP_NO_TLSv1_1 : Z;
  OP_NO_TLSv1_2 : Z;
  OP_NO_TLSv1_3 : Z;
  default_options : Z
}.

(** The constants of OpenSSL 1.0.x, where every flag still has a bit. *)
Definition openssl_1_0 : OpenSSL := {|
  OP_NO_SSLv2 := 0x01000000;
  OP_NO_SSLv3 := 0x02000000;
  OP_NO_TLSv1 := 0x04000000;
  OP_NO_TLSv1_2 := 0x08000000;
  OP_NO_TLSv1_1 := 0x10000000;
  OP_NO_TLSv1_3 := 0x20000000;
  default_options := 0
|}.

Module SSL.

Inductive Method := SSLv23_METHOD.

(** A context object. [ctx_id] is the identity of the Python object: two
    contexts are the same object exactly when their ids agree. *)
Record Context := {
  ctx_id : nat;
  ctx_method : Method;
  ctx_options : Z;
  ctx_privatekey : option string;
  ctx_certificate : option string
}.

(** [SSL.Context(method)]: a fresh object. *)
Definition new_context `{OpenSSL} (id : nat) (m : Method) : Context :=
  {| ctx_id := id; ctx_method := m; ctx_options := default_options;
     ctx_privatekey := None; ctx_certificate := None |}.

(** [ctx.set_options(o)] adds [o] to the options already set. *)
Definition set_options (o : Z) (ctx : Context) : Context :=
  {| ctx_id := ctx_id ctx; ctx_method := ctx_method ctx;
     ctx_options := Z.lor (ctx_options ctx) o;
     ctx_privatekey := ctx_privatekey ctx;
     ctx_certificate := ctx_certificate ctx |}.

(** What the file system and OpenSSL answer while a context is loaded. *)
Record Env := {
  privatekey_file_ok : string -> bool;
  certificate_file_ok : string -> bool;
  privatekey_matches : string -> string -> bool
}.

(** [ctx.use_privatekey_file(path)]; a [None] path is a [TypeError]. *)
Definition use_privatekey_file (env : Env) (path : option string)
    (ctx : Context) : Exn + Context :=
  match path with
  | None => inl TypeError
  | Some p =>
      if privatekey_file_ok env p
      then inr {| ctx_id := ctx_id ctx; ctx_method := ctx_method ctx;
                  ctx_options := ctx_options ctx;
                  ctx_privatekey := Some p;
                  ctx_certificate := ctx_certificate ctx |}
      else inl (SSLError ("use_privatekey_file: " +:+ p))
  end.

(** [ctx.use_certificate_file(path)]. *)
Definition use_certificate_file (env : Env) (path : option string)
    (ctx : Context) : Exn + Context :=
  match path with
  | None => inl TypeError
  | Some p =>
      if certificate_file_ok env p
      then inr {| ctx_id := ctx_id ctx; ctx_method := ctx_method ctx;
                  ctx_options := ctx_options ctx;
                  ctx_privatekey := ctx_privatekey ctx;
                  ctx_certificate := Some p |}
      else inl (SSLError ("use_certificate_file: " +:+ p))
  end.

(** [ctx.check_privatekey()]. *)
Definition check_privatekey (env : Env) (ctx : Context) : Exn + unit :=
  match ctx_privatekey ctx, ctx_certificate ctx with
  | Some k, Some c =>
      if privatekey_matches env k c then inr tt
      else inl (SSLError "check_privatekey: key values mismatch")
  | _, _ => inl (SSLError "check_privatekey: no key or certificate")
  end.

(** A flag is set in an option word when all its bits are. *)
Definition has_option (opts flag : Z) : Prop := Z.land opts flag = flag.

End SSL.

(** ** Sockets, events and traces *)

(** What one call of [ssl_conn.do_handshake()] does: it returns, or raises
    [WantReadError], [WantWriteError] or another error of the library. *)
Inductive HandshakeResult :=
| HsDone
| HsWantRead
| HsWantWrite
| HsError (cause : string).

(** A socket object: the accepted connection, or the [SSL.Connection]
    wrapped around it with a given context. *)
Inductive Sock :=
| RawSock (fd : nat)
| SslSock (fd : nat) (ctx : nat).

(** The diagnostic lines the program prints, one constructor per call
    site, with the values the line interpolates. *)
Inductive Msg :=
| MsgRule
| MsgNewConnection (peer : string)
| MsgImplicitStart
| MsgPerforming
| MsgWantRead (timeout : nat)
| MsgReadable
| MsgHandshakeComplete
| MsgHandshakeFailed
| MsgCause (e : Exn)
| MsgCallingSuper
| MsgSuperDone
| MsgFinalState
| MsgCreating
| MsgCreated
| MsgContextError (e : Exn)
| MsgNoDrive (drive : string)
| MsgMainCritical
| MsgStarting (host : string) (port : Z) (drive : string).

(** What the program does to the outside, in program order.
    [EvSelect rl wl xl t d] is a call [select.select(rl, wl, xl, t)] that
    blocked for [d] time units. [EvDoHandshake r] is a call of
    [do_handshake] that ended as [r]. [EvServerCreate] is the point of the
    construction [ThreadedFTPServer(address, handler)] at which pyftpdlib
    binds the listening socket to the address and starts listening on it;
    [EvSuperInit s] is the set-up of the protocol handler on socket [s] in
    [super().__init__]; [EvServeForever] is the entry into the accept
    loop. *)
Inductive Event :=
| EvPrint (m : Msg)
| EvPrintExc
| EvNewContext (id : nat)
| EvSslConnection (ctx : nat) (fd : nat)
| EvSetAcceptState
| EvDoHandshake (r : HandshakeResult)
| EvSelect (rlist wlist xlist : list Sock) (timeout : nat) (blocked : nat)
| EvClose (s : Sock)
| EvSuperInit (s : Sock)
| EvConfigLogging
| EvServerCreate (host : string) (port : Z)
| EvServeForever.

Definition is_select (e : Event) : bool :=
  match e with EvSelect _ _ _ _ _ => true | _ => false end.

Definition is_super_init (e : Event) : bool :=
  match e with EvSuperInit _ => true | _ => false end.

Definition is_new_context (e : Event) : bool :=
  match e with EvNewContext _ => true | _ => false end.

(** Time spent blocked in [select] over a trace. *)
Fixpoint total_wait (tr : list Event) : nat :=
  match tr with
  | [] => 0
  | EvSelect _ _ _ _ d :: tr => d + total_wait tr
  | _ :: tr => total_wait tr
  end.

(** ** pyftpdlib's [DummyAuthorizer] *)

Module DummyAuthorizer.

Record User := {
  pwd : string;
  home : string;
  perm : string
}.

(** [self.user_table], a dict keyed by user name. *)
Record t := { user_table : gmap string User }.

Definition new : t := {| user_table := ∅ |}.

Definition has_user (a : t) (username : string) : bool :=
  bool_decide (is_Some (user_table a !! username)).

(** [add_user] refuses a name already present and a home that is not a
    directory; the home it stores is [os.path.realpath(homedir)]. *)
Definition add_user (isdir : string -> bool) (realpath : string -> string)
    (username password homedir perm : string) (a : t) : Exn + t :=
  if has_user a username then inl ValueError
  else if negb (isdir homedir) then inl ValueError
  else inr {| user_table :=
                <[username := {| pwd := password; home := realpath homedir;
                                 perm := perm |}]>
                  (user_table a) |}.

Definition add_anonymous (isdir : string -> bool) (realpath : string -> string)
    (homedir perm : string) (a : t) : Exn + t :=
  add_user isdir realpath "anonymous" "" homedir perm a.

End DummyAuthorizer.

(** ** The handler class *)

Module ConfiguredFTPHandler.

(** The class attributes the program reads and writes. [_ssl_context] is
    [None] while the class has no attribute of that name. [timeout] is
    inherited from pyftpdlib's [FTPHandler]. *)
Record cls := {
  implicit_tls : bool;
  tls_control_required : bool;
  tls_data_required : bool;
  certfile : option string;
  keyfile : option string;
  _ssl_context : option SSL.Context;
  authorizer : option DummyAuthorizer.t;
  banner : string;
  lan_ip : option string;
  timeout : nat
}.

(** The class as the import leaves it, before [main] configures it; the
    attributes the program does not assign have pyftpdlib's values
    ([timeout] is 300 seconds there, [authorizer] an empty
    [DummyAuthorizer]). The imported class has no [implicit_tls] at all:
    [main] assigns it (line 117) before anything reads it. *)
Definition initial : cls := {|
  implicit_tls := false;
  tls_control_required := false;
  tls_data_required := false;
  certfile := None;
  keyfile := None;
  _ssl_context := None;
  authorizer := Some DummyAuthorizer.new;
  banner := "pyftpdlib ready.";
  lan_ip := None;
  timeout := 300
|}.

(** Assignments to the class attributes. *)
Definition set_implicit_tls (b : bool) (c : cls) : cls :=
  {| implicit_tls := b;
     tls_control_required := tls_control_required c;
     tls_data_required := tls_data_required c;
     certfile := certfile c; keyfile := keyfile c;
     _ssl_context := _ssl_context c;
     authorizer := authorizer c; banner := banner c;
     lan_ip := lan_ip c; timeout := timeout c |}.

Definition set_tls_control_required (b : bool) (c : cls) : cls :=
  {| implicit_tls := implicit_tls c;
     tls_control_required := b;
     tls_data_required := tls_data_required c;
     certfile := certfile c; keyfile := keyfile c;
     _ssl_context := _ssl_context c;
     authorizer := authorizer c; banner := banner c;
     lan_ip := lan_ip c; timeout := timeout c |}.

Definition set_tls_data_required (b : bool) (c : cls) : cls :=
  {| implicit_tls := implicit_tls c;
     tls_control_required := tls_control_required c;
     tls_data_required := b;
     certfile := certfile c; keyfile := keyfile c;
     _ssl_context := _ssl_context c;
     authorizer := authorizer c; banner := banner c;
     lan_ip := lan_ip c; timeout := timeout c |}.

Definition set_certfile (f : option string) (c : cls) : cls :=
  {| implicit_tls := implicit_tls c;
     tls_control_required := tls_control_required c;
     tls_data_required := tls_data_required c;
     certfile := f; keyfile := keyfile c;
     _ssl_context := _ssl_context c;
     authorizer := authorizer c; banner := banner c;
     lan_ip := lan_ip c; timeout := timeout c |}.

Definition set_keyfile (f : option string) (c : cls) : cls :=
  {| implicit_tls := implicit_tls c;
     tls_control_required := tls_control_required c;
     tls_data_required := tls_data_required c;
     certfile := certfile c; keyfile := f;
     _ssl_context := _ssl_context c;
     authorizer := authorizer c; banner := banner c;
     lan_ip := lan_ip c; timeout := timeout c |}.

Definition set_ssl_context (ctx : SSL.Context) (c : cls) : cls :=
  {| implicit_tls := implicit_tls c;
     tls_control_required := tls_control_required c;
     tls_data_required := tls_data_required c;
     certfile := certfile c; keyfile := keyfile c;
     _ssl_context := Some ctx;
     authorizer := authorizer c; banner := banner c;
     lan_ip := lan_ip c; timeout := timeout c |}.

Definition set_authorizer (a : DummyAuthorizer.t) (c : cls) : cls :=
  {| implicit_tls := implicit_tls c;
     tls_control_required := tls_control_required c;
     tls_data_required := tls_data_required c;
     certfile := certfile c; keyfile := keyfile c;
     _ssl_context := _ssl_context c;
     authorizer := Some a; banner := banner c;
     lan_ip := lan_ip c; timeout := timeout c |}.

Definition set_banner (b : string) (c : cls) : cls :=
  {| implicit_tls := implicit_tls c;
     tls_control_required := tls_control_required c;
     tls_data_required := tls_data_required c;
     certfile := certfile c; keyfile := keyfile c;
     _ssl_context := _ssl_context c;
     authorizer := authorizer c; banner := b;
     lan_ip := lan_ip c; timeout := timeout c |}.

Definition set_lan_ip (ip : string) (c : cls) : cls :=
  {| implicit_tls := implicit_tls c;
     tls_control_required := tls_control_required c;
     tls_data_required := tls_data_required c;
     certfile := certfile c; keyfile := keyfile c;
     _ssl_context := _ssl_context c;
     authorizer := authorizer c; banner := banner c;
     lan_ip := Some ip; timeout := timeout c |}.

(** The process state the class methods run in: the class itself and the
    number of context objects allocated so far (the next object id). *)
Record World := {
  klass : cls;
  next_id : nat
}.

Section WithOpenSSL.
Context `{OpenSSL}.

(** The option mask of line 87. *)
Definition no_old_protocols : Z :=
  Z.lor (Z.lor (Z.lor OP_NO_SSLv2 OP_NO_SSLv3) OP_NO_TLSv1) OP_NO_TLSv1_1.

(** The body of the [try] of [get_ssl_context], up to the assignment
    to the class attribute: the built context or the exception. *)
Definition build_context (env : SSL.Env) (c : cls) (id : nat)
    : Exn + SSL.Context :=
  let ctx := SSL.new_context id SSL.SSLv23_METHOD in
  let ctx := SSL.set_options no_old_protocols ctx in
  match SSL.use_privatekey_file env (keyfile c) ctx with
  | inl e => inl e
  | inr ctx =>
      match SSL.use_certificate_file env (certfile c) ctx with
      | inl e => inl e
      | inr ctx =>
          match SSL.check_privatekey env ctx with
          | inl e => inl e
          | inr _ => inr ctx
          end
      end
  end.

(** [get_ssl_context]: the returned value ([None] for Python's
    [None]), the state it leaves and what it did. *)
Definition get_ssl_context (env : SSL.Env) (w : World)
    : option SSL.Context * World * list Event :=
  match _ssl_context (klass w) with
  | Some ctx => (Some ctx, w, [])
  | None =>
      let id := next_id w in
      match build_context env (klass w) id with
      | inr ctx =>
          (Some ctx,
           {| klass := set_ssl_context ctx (klass w); next_id := S id |},
           [EvPrint MsgCreating; EvNewContext id; EvPrint MsgCreated])
      | inl e =>
          (None,
           {| klass := klass w; next_id := S id |},
           [EvPrint MsgCreating; EvNewContext id; EvPrint (MsgContextError e)])
      end
  end.

(** The accepted connection, as [__init__] sees it: its descriptor,
    the answer of [getpeername()] ([None] when it raises), how the
    [k]-th call of [do_handshake] ends, and how long after the start
    of the [k]-th [select] the socket becomes readable ([None]:
    never). *)
Record Conn := {
  fd : nat;
  getpeername : option string;
  do_handshake : nat -> HandshakeResult;
  readable_after : nat -> option nat
}.

(** [select.select([ssl_conn], [], [], timeout)] at the [k]-th wait:
    whether the socket is reported readable, and the time blocked. *)
Definition select_readable (conn : Conn) (k tmo : nat) : bool * nat :=
  match readable_after conn k with
  | Some d => if d <=? tmo then (true, d) else (false, tmo)
  | None => (false, tmo)
  end.

(** The [while True] loop of lines 49-59, from the [k]-th attempt on.
    It yields the exception that leaves the loop, or [None] after the
    [break]; without fuel left it yields nothing. *)
Fixpoint handshake_loop (fuel : nat) (conn : Conn) (ssl_conn : Sock)
    (tmo : nat) (k : nat) : option (option Exn * list Event) :=
  match fuel with
  | O => None
  | S fuel =>
      match do_handshake conn k with
      | HsDone =>
          Some (None, [EvPrint MsgPerforming; EvDoHandshake HsDone])
      | HsWantRead =>
          let '(ready, blocked) := select_readable conn k tmo in
          let evs := [EvPrint MsgPerforming; EvDoHandshake HsWantRead;
                      EvPrint (MsgWantRead tmo);
                      EvSelect [ssl_conn] [] [] tmo blocked] in
          if ready then
            match handshake_loop fuel conn ssl_conn tmo (S k) with
            | Some (r, tr) => Some (r, evs ++ EvPrint MsgReadable :: tr)
            | None => None
            end
          else Some (Some TimeoutError, evs)
      | HsWantWrite =>
          Some (Some WantWriteError,
                [EvPrint MsgPerforming; EvDoHandshake HsWantWrite])
      | HsError cause =>
          Some (Some (SSLError cause),
                [EvPrint MsgPerforming; EvDoHandshake (HsError cause)])
      end
  end.

(** The [try] block of lines 39-62: the secured connection bound to
    [conn], or the exception raised inside the block. *)
Definition handshake (fuel : nat) (env : SSL.Env) (w : World) (conn : Conn)
    : option ((Exn + Sock) * World * list Event) :=
  let '(ctx, w', evs) := get_ssl_context env w in
  match ctx with
  | None => Some (inl RuntimeError, w', evs)
  | Some ctx =>
      let ssl_conn := SslSock (fd conn) (SSL.ctx_id ctx) in
      let tmo := timeout (klass w') in
      match handshake_loop fuel conn ssl_conn tmo 0 with
      | None => None
      | Some (r, tr) =>
          let done := evs ++ [EvSslConnection (SSL.ctx_id ctx) (fd conn);
                              EvSetAcceptState] ++ tr in
          match r with
          | Some e => Some (inl e, w', done)
          | None =>
              Some (inr ssl_conn, w', done ++ [EvPrint MsgHandshakeComplete])
          end
      end
  end.

(** Lines 71-75. [super().__init__] is pyftpdlib's
    [TLS_FTPHandler.__init__]: it sets the handler up on [s] and, the peer
    being connected, ends with a call of [cls.get_ssl_context()], whose
    value it keeps on the instance. *)
Definition super_init (env : SSL.Env) (w : World) (s : Sock)
    : World * list Event :=
  let '(_, w', evs) := get_ssl_context env w in
  (w', [EvPrint MsgCallingSuper; EvSuperInit s] ++ evs
       ++ [EvPrint MsgSuperDone; EvPrint MsgFinalState; EvPrint MsgRule]).

(** The [except Exception] block of lines 64-69; [conn] still names
    the accepted connection there. *)
Definition handshake_failed (e : Exn) (conn : Conn) : list Event :=
  [EvPrint MsgHandshakeFailed; EvPrint (MsgCause e); EvPrintExc;
   EvClose (RawSock (fd conn))].

(** [__init__(self, conn, server, ioloop)]: how the call ends, the
    state it leaves and its trace; nothing when the loop is still
    running after [fuel] attempts. *)
Definition __init__ (fuel : nat) (env : SSL.Env) (w : World) (conn : Conn)
    : option (Completion * World * list Event) :=
  match getpeername conn with
  | None => Some (Raised OSError, w, [EvPrint MsgRule])
  | Some peer =>
      let start := [EvPrint MsgRule; EvPrint (MsgNewConnection peer)] in
      if implicit_tls (klass w) then
        match handshake fuel env w conn with
        | None => None
        | Some (inl e, w', tr) =>
            Some (Returned, w',
                  start ++ [EvPrint MsgImplicitStart] ++ tr
                        ++ handshake_failed e conn)
        | Some (inr s, w', tr) =>
            let '(w'', evs) := super_init env w' s in
            Some (Returned, w'',
                  start ++ [EvPrint MsgImplicitStart] ++ tr ++ evs)
        end
      else
        let '(w', evs) := super_init env w (RawSock (fd conn)) in
        Some (Returned, w', start ++ evs)
  end.

End WithOpenSSL.

End ConfiguredFTPHandler.

(** ** Startup *)

Inductive FtpsMode := Explicit | Implicit.

(** The namespace [parser.parse_args()] returns (lines 100-110). *)
Module Args.
Record t := {
  drive : string;
  host : string;
  port : Z;
  user : option string;
  password : option string;
  allow_anonymous : bool;
  ftps_mode : option FtpsMode;
  certfile : option string;
  keyfile : option string
}.
End Args.

(** What the machine answers during startup: which paths are directories,
    the canonical path [os.path.realpath] gives for a path, how the key and
    certificate load, the address the probe socket of [get_lan_ip] reports
    ([None] when the probe raises), and whether the listening address can
    be bound. *)
Record Env := {
  isdir : string -> bool;
  realpath : string -> string;
  ssl_env : SSL.Env;
  getsockname : option string;
  bind_ok : string -> Z -> bool
}.

Definition get_lan_ip (env : Env) : string :=
  match getsockname env with
  | Some ip => ip
  | None => "127.0.0.1"
  end.

(** The server object of line 141 with the attributes of lines 142-143. *)
Record Server := {
  address : string * Z;
  max_cons : Z;
  max_cons_per_ip : Z
}.

(** A run of [main]: how it ends, the handler class and the server object
    it leaves, and its trace. *)
Record Run := {
  completion : Completion;
  world : ConfiguredFTPHandler.World;
  server : option Server;
  trace : list Event
}.

Section Main.
Context `{OpenSSL}.
Import ConfiguredFTPHandler.

(** Lines 116-128. *)
Definition configure_tls (args : Args.t) (handler : cls) : cls :=
  let handler := set_implicit_tls false handler in
  let handler := set_tls_control_required false handler in
  let handler := set_tls_data_required false handler in
  if truthy (Args.certfile args) && truthy (Args.keyfile args) then
    let handler := set_certfile (Args.certfile args) handler in
    let handler := set_keyfile (Args.keyfile args) handler in
    match Args.ftps_mode args with
    | Some Implicit => set_implicit_tls true handler
    | _ =>
        let handler := set_tls_control_required true handler in
        set_tls_data_required true handler
    end
  else handler.

(** Lines 130-134. *)
Definition build_authorizer (env : Env) (args : Args.t)
    : Exn + DummyAuthorizer.t :=
  let authorizer := DummyAuthorizer.new in
  let added :=
    if truthy (Args.user args) && truthy (Args.password args) then
      DummyAuthorizer.add_user (isdir env) (realpath env)
        (default "" (Args.user args)) (default "" (Args.password args))
        (Args.drive args) "elradfmw" authorizer
    else inr authorizer in
  match added with
  | inl e => inl e
  | inr authorizer =>
      if Args.allow_anonymous args then
        DummyAuthorizer.add_anonymous (isdir env) (realpath env)
          (Args.drive args) "elradfmw" authorizer
      else inr authorizer
  end.

(** Lines 145-151, with the server object built. *)
Definition check_and_serve (env : Env) (args : Args.t) (w : World)
    (srv : Server) (tr : list Event) : Run :=
  let starting :=
    [EvPrint (MsgStarting (Args.host args) (Args.port args) (Args.drive args));
     EvServeForever] in
  if implicit_tls (klass w) || tls_control_required (klass w) then
    let '(ctx, w', evs) := get_ssl_context (ssl_env env) w in
    match ctx with
    | None =>
        {| completion := Returned; world := w'; server := Some srv;
           trace := tr ++ evs ++ [EvPrint MsgMainCritical] |}
    | Some _ =>
        {| completion := Returned; world := w'; server := Some srv;
           trace := tr ++ evs ++ starting |}
    end
  else
    {| completion := Returned; world := w; server := Some srv;
       trace := tr ++ starting |}.

(** [ThreadedFTPServer(address, handler)] (line 141): pyftpdlib's
    constructor first calls [handler.get_ssl_context()], dropping its
    value, and then binds the address and listens; a bind that fails
    raises [OSError]. *)
Definition ThreadedFTPServer (env : Env) (host : string) (port : Z) (w : World)
    : Completion * World * list Event :=
  let '(_, w', evs) := get_ssl_context (ssl_env env) w in
  if bind_ok env host port then (Returned, w', evs ++ [EvServerCreate host port])
  else (Raised OSError, w', evs).

(** [main], after the arguments are parsed, in a fresh process. *)
Definition main (env : Env) (args : Args.t) : Run :=
  let w0 := {| klass := initial; next_id := 0 |} in
  if negb (isdir env (Args.drive args)) then
    {| completion := Returned; world := w0; server := None;
       trace := [EvConfigLogging; EvPrint (MsgNoDrive (Args.drive args))] |}
  else
    let handler := configure_tls args initial in
    match build_authorizer env args with
    | inl e =>
        {| completion := Raised e;
           world := {| klass := handler; next_id := 0 |};
           server := None; trace := [EvConfigLogging] |}
    | inr authorizer =>
        let handler := set_authorizer authorizer handler in
        let handler := set_banner "pyftpdlib based ftpd ready." handler in
        let handler := set_lan_ip (get_lan_ip env) handler in
        let w := {| klass := handler; next_id := 0 |} in
        match ThreadedFTPServer env (Args.host args) (Args.port args) w with
        | (Returned, w, evs) =>
            let srv := {| address := (Args.host args, Args.port args);
                          max_cons := 256; max_cons_per_ip := 5 |} in
            check_and_serve env args w srv ([EvConfigLogging] ++ evs)
        | (Raised e, w, evs) =>
            {| completion := Raised e; world := w; server := None;
               trace := [EvConfigLogging] ++ evs |}
        end
    end.

(** The ceilings the running server applies. *)
Definition limits (r : Run) : option (Z * Z) :=
  match server r with
  | Some srv => Some (max_cons srv, max_cons_per_ip srv)
  | None => None
  end.

End Main.

(** ** Observations on runs *)

Section Observations.
Context `{OpenSSL}.
Import ConfiguredFTPHandler.

(** Successive calls of [get_ssl_context], one per environment (the
    files may change between calls): the value and trace of each call,
    and the state after the last. *)
Fixpoint calls (envs : list SSL.Env) (w : World)
    : list (option SSL.Context * list Event) * World :=
  match envs with
  | [] => ([], w)
  | env :: envs =>
      let '(r, w', tr) := get_ssl_context env w in
      let '(rs, w'') := calls envs w' in
      ((r, tr) :: rs, w'')
  end.

(** The exception with which building a context for class [c] fails in
    [env], if it does. *)
Definition build_error (env : SSL.Env) (c : cls) : option Exn :=
  match build_context env c 0 with
  | inl e => Some e
  | inr _ => None
  end.

(** Events that are neither a handshake attempt nor a wait. *)
Definition quiet (e : Event) : bool :=
  match e with
  | EvDoHandshake _ | EvSelect _ _ _ _ _ => false
  | _ => true
  end.

(** What the handshake loop on [ssl_conn] with timeout [tmo] may do: print,
    attempt, and wait at most [tmo] for [ssl_conn] alone to be readable. *)
Definition loop_event (ssl_conn : Sock) (tmo : nat) (e : Event) : Prop :=
  match e with
  | EvPrint _ | EvDoHandshake _ => True
  | EvSelect rl wl xl t d =>
      rl = [ssl_conn] ∧ wl = [] ∧ xl = [] ∧ t = tmo ∧ d ≤ tmo
  | _ => False
  end.

(** The lists of the first [select] of a trace that comes before any
    further handshake attempt. *)
Fixpoint next_wait (tr : list Event)
    : option (list Sock * list Sock * list Sock) :=
  match tr with
  | [] => None
  | EvSelect rl wl xl _ _ :: _ => Some (rl, wl, xl)
  | EvDoHandshake _ :: _ => None
  | _ :: tr => next_wait tr
  end.

(** The handshake attempts of a trace, each with the wait that follows
    it. *)
Fixpoint attempts (tr : list Event)
    : list (HandshakeResult * option (list Sock * list Sock * list Sock)) :=
  match tr with
  | [] => []
  | EvDoHandshake r :: tr => (r, next_wait tr) :: attempts tr
  | _ :: tr => attempts tr
  end.




(** The number of [select] calls of a trace. *)
Definition waits (tr : list Event) : nat := length (filter is_select tr).

(** The handshake of [conn] under timeout [tmo] leaves the loop with an
    exception at attempt [n]: the attempts before it asked for
    readability and got it in time, and attempt [n] raises another error
    or asks for readability that does not come in time. *)
Definition fails_at (conn : Conn) (tmo n : nat) : Prop :=
  (∀ k, k < n →
     do_handshake conn k = HsWantRead ∧ (select_readable conn k tmo).1 = true)
  ∧ (do_handshake conn n = HsWantWrite
     ∨ (∃ cause, do_handshake conn n = HsError cause)
     ∨ (do_handshake conn n = HsWantRead
        ∧ (select_readable conn n tmo).1 = false)).

Definition with_ftps_mode (m : option FtpsMode) (a : Args.t) : Args.t :=
  {| Args.drive := Args.drive a; Args.host := Args.host a;
     Args.port := Args.port a; Args.user := Args.user a;
     Args.password := Args.password a;
     Args.allow_anonymous := Args.allow_anonymous a;
     Args.ftps_mode := m;
     Args.certfile := Args.certfile a; Args.keyfile := Args.keyfile a |}.

End Observations.

(** ** Sample inputs *)

Module Samples.
Import ConfiguredFTPHandler.

(** Key and certificate load and match. *)
Definition good_files : SSL.Env :=
  {| SSL.privatekey_file_ok := fun _ => true;
     SSL.certificate_file_ok := fun _ => true;
     SSL.privatekey_matches := fun _ _ => true |}.

(** The key file cannot be read. *)
Definition no_key : SSL.Env :=
  {| SSL.privatekey_file_ok := fun _ => false;
     SSL.certificate_file_ok := fun _ => true;
     SSL.privatekey_matches := fun _ _ => true |}.

(** The key does not belong to the certificate. *)
Definition mismatch : SSL.Env :=
  {| SSL.privatekey_file_ok := fun _ => true;
     SSL.certificate_file_ok := fun _ => true;
     SSL.privatekey_matches := fun _ _ => false |}.

Definition machine (files : SSL.Env) : Env :=
  {| isdir := fun _ => true; realpath := fun path => path; ssl_env := files;
     getsockname := Some "192.168.1.10"; bind_ok := fun _ _ => true |}.

Definition args (mode : option FtpsMode) : Args.t :=
  {| Args.drive := "/srv/share"; Args.host := "0.0.0.0"; Args.port := 21%Z;
     Args.user := Some "alice"; Args.password := Some "secret";
     Args.allow_anonymous := false; Args.ftps_mode := mode;
     Args.certfile := Some "cert.pem"; Args.keyfile := Some "key.pem" |}.

(** The class as [main] leaves it in implicit mode, before any context
    is built. *)
Definition implicit_class : cls :=
  set_keyfile (Some "key.pem") (set_certfile (Some "cert.pem")
    (set_implicit_tls true initial)).

Definition fresh : World := {| klass := implicit_class; next_id := 0 |}.

(** A client whose every attempt asks for writability. *)
Definition wants_write : Conn :=
  {| fd := 7; getpeername := Some "10.0.0.2:50000";
     do_handshake := fun _ => HsWantWrite;
     readable_after := fun _ => Some 0 |}.

(** A client that needs two round trips, each arriving after 200 time
    units. *)
Definition slow_client : Conn :=
  {| fd := 8; getpeername := Some "10.0.0.3:50000";
     do_handshake := fun k => if k <? 2 then HsWantRead else HsDone;
     readable_after := fun _ => Some 200 |}.

(** A client that connects and stays silent. *)
Definition silent : Conn :=
  {| fd := 9; getpeername := Some "10.0.0.4:50000";
     do_handshake := fun _ => HsWantRead;
     readable_after := fun _ => None |}.

(** A client that sends one flight and then something that is not TLS. *)
Definition garbage : Conn :=
  {| fd := 10; getpeername := Some "10.0.0.5:50000";
     do_handshake := fun k => if k <? 1 then HsWantRead else HsError "wrong version number";
     readable_after := fun _ => Some 3 |}.

End Samples.

(** ** Further observations *)

(** Both files are given, which is when lines 121-128 turn TLS on. *)
Definition tls_required (args : Args.t) : bool :=
  truthy (Args.certfile args) && truthy (Args.keyfile args).

(** The handler class as [main] hands it to the server (lines 116-137),
    with the accounts [a]. *)
Definition configured (env : Env) (args : Args.t) (a : DummyAuthorizer.t)
    : ConfiguredFTPHandler.cls :=
  ConfiguredFTPHandler.set_lan_ip (get_lan_ip env)
    (ConfiguredFTPHandler.set_banner "pyftpdlib based ftpd ready."
       (ConfiguredFTPHandler.set_authorizer a
          (configure_tls args ConfiguredFTPHandler.initial))).

(** The server object of lines 141-143. *)
Definition the_server (args : Args.t) : Server :=
  {| address := (Args.host args, Args.port args);
     max_cons := 256; max_cons_per_ip := 5 |}.

(** The events of lines 150-151. *)
Definition starting (args : Args.t) : list Event :=
  [EvPrint (MsgStarting (Args.host args) (Args.port args) (Args.drive args));
   EvServeForever].

Definition is_close (e : Event) : bool :=
  match e with EvClose _ => true | _ => false end.

(** What a trace does with connections: the hand-overs to
    [super().__init__] and the closes, in order. *)
Fixpoint outcomes (tr : list Event) : list Event :=
  match tr with
  | [] => []
  | EvSuperInit s :: tr => EvSuperInit s :: outcomes tr
  | EvClose s :: tr => EvClose s :: outcomes tr
  | _ :: tr => outcomes tr
  end.

(** The time the waits number [k] to [k + n - 1] of [conn] block under
    timeout [tmo]. *)
Fixpoint sum_delays (conn : ConfiguredFTPHandler.Conn) (tmo k n : nat) : nat :=
  match n with
  | O => 0
  | S n =>
      (ConfiguredFTPHandler.select_readable conn k tmo).2
      + sum_delays conn tmo (S k) n
  end.

(** The machine with another answer of the probe socket. *)
Definition with_getsockname (ip : option string) (env : Env) : Env :=
  {| isdir := isdir env; realpath := realpath env; ssl_env := ssl_env env;
     getsockname := ip; bind_ok := bind_ok env |}.

Module MoreSamples.
Import ConfiguredFTPHandler.

(** A client that keeps the handshake alive without finishing it: every
    attempt asks for readability and a few bytes arrive after 250. *)
Definition dripping : Conn :=
  {| fd := 11; getpeername := Some "10.0.0.6:50000";
     do_handshake := fun _ => HsWantRead;
     readable_after := fun _ => Some 250 |}.

(** A client that sends two flights, after 100 and 150, and then goes
    silent. *)
Definition stalls : Conn :=
  {| fd := 12; getpeername := Some "10.0.0.7:50000";
     do_handshake := fun _ => HsWantRead;
     readable_after := fun k =>
       match k with 0 => Some 100 | 1 => Some 150 | _ => None end |}.

(** A client that has disconnected before [__init__] runs. *)
Definition gone : Conn :=
  {| fd := 13; getpeername := None;
     do_handshake := fun _ => HsError "unexpected eof";
     readable_after := fun _ => Some 0 |}.

Definition plain_args : Args.t :=
  {| Args.drive := "/srv/share"; Args.host := "0.0.0.0"; Args.port := 2121%Z;
     Args.user := Some "alice"; Args.password := Some "secret";
     Args.allow_anonymous := true; Args.ftps_mode := Some Implicit;
     Args.certfile := Some "cert.pem"; Args.keyfile := None |}.

(** A machine on which the served path is a link to a mounted share. *)
Definition linked : Env :=
  {| isdir := fun _ => true;
     realpath := fun path =>
       if String.eqb path "/srv/share" then "/mnt/nas/share" else path;
     ssl_env := Samples.good_files;
     getsockname := None; bind_ok := fun _ _ => true |}.

Definition anonymous_twice : Args.t :=
  {| Args.drive := "/srv/share"; Args.host := "0.0.0.0"; Args.port := 21%Z;
     Args.user := Some "anonymous"; Args.password := Some "guest";
     Args.allow_anonymous := true; Args.ftps_mode := None;
     Args.certfile := None; Args.keyfile := None |}.

End MoreSamples.

(** * Properties *)

Import ConfiguredFTPHandler.

(** ** The context cache *)

Lemma has_option_lor_l (x a b : Z) :
  SSL.has_option x a → SSL.has_option (Z.lor x b) a.
Proof.
  unfold SSL.has_option; intros Ha.
  apply Z.bits_inj'; intros n _.
  apply (f_equal (fun z => Z.testbit z n)) in Ha.
  rewrite Z.land_spec in Ha. rewrite Z.land_spec, Z.lor_spec.
  destruct (Z.testbit x n), (Z.testbit a n), (Z.testbit b n); done.
Qed.

Lemma has_option_lor_r (x a b : Z) :
  SSL.has_option b a → SSL.has_option (Z.lor x b) a.
Proof. rewrite Z.lor_comm. apply has_option_lor_l. Qed.

Lemma has_option_same (a : Z) : SSL.has_option a a.
Proof. apply Z.land_diag. Qed.

(** A built context carries the identity it was allocated with and the
    default options extended by the mask; loading the files does not touch
    the options. *)
Lemma build_context_inr `{OpenSSL} env c id ctx :
  build_context env c id = inr ctx →
  SSL.ctx_id ctx = id
  ∧ SSL.ctx_options ctx = Z.lor default_options no_old_protocols.
Proof.
  unfold build_context, SSL.use_privatekey_file, SSL.use_certificate_file,
    SSL.check_privatekey.
  destruct (keyfile c) as [k|]; [|done].
  destruct (SSL.privatekey_file_ok env k); [|done].
  destruct (certfile c) as [f|]; [|done].
  destruct (SSL.certificate_file_ok env f); [|done]. simpl.
  destruct (SSL.privatekey_matches env k f); [|done].
  intros [= <-]. done.
Qed.

(** Whether the build fails, and with which exception, does not depend on
    the identity of the object under construction. *)
Lemma build_context_inl `{OpenSSL} env c id e :
  build_context env c id = inl e ↔ build_error env c = Some e.
Proof.
  unfold build_error, build_context, SSL.use_privatekey_file,
    SSL.use_certificate_file, SSL.check_privatekey.
  destruct (keyfile c) as [k|]; [|split; congruence].
  destruct (SSL.privatekey_file_ok env k); [|split; congruence].
  destruct (certfile c) as [f|]; [|split; congruence].
  destruct (SSL.certificate_file_ok env f); [|split; congruence]. simpl.
  destruct (SSL.privatekey_matches env k f); split; congruence.
Qed.

(** The three ways a call of [get_ssl_context] can go. *)
Lemma get_ssl_context_cases `{OpenSSL} env w :
  (∃ ctx, _ssl_context (klass w) = Some ctx
          ∧ get_ssl_context env w = (Some ctx, w, []))
  ∨ (∃ ctx, _ssl_context (klass w) = None
            ∧ build_context env (klass w) (next_id w) = inr ctx
            ∧ get_ssl_context env w =
                (Some ctx,
                 {| klass := set_ssl_context ctx (klass w);
                    next_id := S (next_id w) |},
                 [EvPrint MsgCreating; EvNewContext (next_id w);
                  EvPrint MsgCreated]))
  ∨ (∃ e, _ssl_context (klass w) = None
          ∧ build_error env (klass w) = Some e
          ∧ get_ssl_context env w =
              (None,
               {| klass := klass w; next_id := S (next_id w) |},
               [EvPrint MsgCreating; EvNewContext (next_id w);
                EvPrint (MsgContextError e)])).
Proof.
  unfold get_ssl_context.
  destruct (_ssl_context (klass w)) as [ctx|] eqn:Hc; [left; eauto|].
  destruct (build_context env (klass w) (next_id w)) as [e|ctx] eqn:Hb.
  - right; right. exists e. by apply build_context_inl in Hb.
  - right; left. eauto.
Qed.

(** Once a context is cached, a call returns it and does nothing else. *)
Lemma calls_cached `{OpenSSL} envs w ctx :
  _ssl_context (klass w) = Some ctx →
  calls envs w = (map (λ _, (Some ctx, [])) envs, w).
Proof.
  intros Hc. induction envs as [|env envs IH]; [done|].
  simpl. unfold get_ssl_context at 1. rewrite Hc, IH. done.
Qed.

Lemma calls_cached_lookup `{OpenSSL} envs w ctx i r :
  _ssl_context (klass w) = Some ctx →
  (calls envs w).1 !! i = Some r → r = (Some ctx, []).
Proof.
  intros Hc. rewrite (calls_cached envs w ctx Hc). simpl.
  rewrite list_lookup_fmap. destruct (envs !! i); naive_solver.
Qed.

(** C5. While building the context fails, nothing is cached: after any
    number of failing calls the class is unchanged (it still has no
    [_ssl_context]), every one of these calls returned [None] after
    allocating a context of its own and printing the exception of the step
    that failed, and the next call builds again from scratch, so that its
    result is the result of a fresh build in the environment of that call. *)
Theorem failed_build_leaves_cache_empty `{OpenSSL}
    (envs : list SSL.Env) (w : World) :
  _ssl_context (klass w) = None →
  Forall (λ env, is_Some (build_error env (klass w))) envs →
  klass (calls envs w).2 = klass w
  ∧ next_id (calls envs w).2 = next_id w + length envs
  ∧ Forall2
      (λ env r, ∃ e id,
         build_error env (klass w) = Some e
         ∧ r = (None, [EvPrint MsgCreating; EvNewContext id;
                       EvPrint (MsgContextError e)]))
      envs (calls envs w).1
  ∧ ∀ env',
      (get_ssl_context env' (calls envs w).2).1.1 =
        match build_context env' (klass w) (next_id w + length envs) with
        | inr ctx => Some ctx
        | inl _ => None
        end.
Proof.
  intros Hc Hfail.
  assert (klass (calls envs w).2 = klass w
          ∧ next_id (calls envs w).2 = next_id w + length envs
          ∧ Forall2
              (λ env r, ∃ e id,
                 build_error env (klass w) = Some e
                 ∧ r = (None, [EvPrint MsgCreating; EvNewContext id;
                               EvPrint (MsgContextError e)]))
              envs (calls envs w).1) as (Hk & Hn & Hall).
  { revert w Hc Hfail. induction envs as [|env envs IH]; intros w Hc Hfail.
    - simpl. split; [done|]. split; [lia|constructor].
    - apply Forall_cons in Hfail as [[e He] Hfail].
      destruct (get_ssl_context_cases env w)
        as [(ctx & Hc' & _)|[(ctx & _ & Hb & _)|(e' & _ & He' & Hg)]].
      + congruence.
      + pose proof (proj2 (build_context_inl env (klass w) (next_id w) e) He).
        congruence.
      + simpl. rewrite Hg.
        set (w1 := {| klass := klass w; next_id := S (next_id w) |}).
        destruct (IH w1 Hc Hfail) as (Hk & Hn & Hall).
        destruct (calls envs w1) as [rs w2]. simpl in *.
        split; [done|]. split; [lia|].
        constructor; [|done]. eauto. }
  split; [done|]. split; [done|]. split; [done|].
  intros env'. unfold get_ssl_context. rewrite Hk, Hc, Hn.
  by destruct (build_context env' (klass w) (next_id w + length envs)).
Qed.

(** Two calls in a row against an unreadable key, then the key is fixed. *)
Lemma failed_build_leaves_cache_empty_witness :
  _ssl_context (klass (calls (H := openssl_1_0)
                         [Samples.no_key; Samples.mismatch] Samples.fresh).2)
    = None
  ∧ (calls (H := openssl_1_0)
       [Samples.no_key; Samples.mismatch] Samples.fresh).1
    = [(None, [EvPrint MsgCreating; EvNewContext 0;
               EvPrint (MsgContextError
                          (SSLError "use_privatekey_file: key.pem"))]);
       (None, [EvPrint MsgCreating; EvNewContext 1;
               EvPrint (MsgContextError
                          (SSLError "check_privatekey: key values mismatch"))])]
  ∧ SSL.ctx_id <$>
      (get_ssl_context (H := openssl_1_0) Samples.good_files
         (calls (H := openssl_1_0)
            [Samples.no_key; Samples.mismatch] Samples.fresh).2).1.1
    = Some 2.
Proof.
  pose proof (failed_build_leaves_cache_empty (H := openssl_1_0)
                [Samples.no_key; Samples.mismatch] Samples.fresh) as Hthm.
  destruct Hthm as (Hk & _ & _ & Hnext).
  - reflexivity.
  - repeat constructor; vm_compute; eauto.
  - split; [rewrite Hk; reflexivity|].
    split; [reflexivity|].
    rewrite Hnext. reflexivity.
Defined.

(** C6. Over any sequence of calls, whatever the files do in between, all
    the contexts handed out are one and the same object: two calls that
    return a context return the identical record (same identity, same
    contents), the later of the two did nothing but read the cache, and
    this very object is what the class holds at the end. *)
Theorem context_is_shared `{OpenSSL} (envs : list SSL.Env) (w : World)
    (i j : nat) (ci cj : SSL.Context) (ti tj : list Event) :
  (calls envs w).1 !! i = Some (Some ci, ti) →
  (calls envs w).1 !! j = Some (Some cj, tj) →
  ci = cj
  ∧ (i < j → tj = [])
  ∧ _ssl_context (klass (calls envs w).2) = Some ci.
Proof.
  revert w i j. induction envs as [|env envs IH]; intros w i j Hi Hj.
  { simpl in Hi. by rewrite lookup_nil in Hi. }
  assert (∀ ctx w' tr,
            _ssl_context (klass w') = Some ctx →
            get_ssl_context env w = (Some ctx, w', tr) →
            ci = cj ∧ (i < j → tj = [])
            ∧ _ssl_context (klass (calls (env :: envs) w).2) = Some ci)
    as Hhit.
  { intros ctx w' tr Hc' Hg. simpl in *. rewrite Hg in *.
    pose proof (calls_cached envs w' ctx Hc') as Hrest.
    pose proof (calls_cached_lookup envs w' ctx) as Hlk.
    destruct (calls envs w') as [rs w'']. simpl in *.
    injection Hrest as -> ->.
    assert (ci = ctx) as ->.
    { destruct i; simpl in Hi; [congruence|].
      specialize (Hlk _ _ Hc' Hi). congruence. }
    assert (cj = ctx ∧ (i < j → tj = [])) as [-> Htj].
    { destruct j; simpl in Hj; [split; [congruence|lia]|].
      specialize (Hlk _ _ Hc' Hj). split; congruence. }
    done. }
  destruct (get_ssl_context_cases env w)
    as [(ctx & Hc & Hg)|[(ctx & _ & _ & Hg)|(e & Hc & _ & Hg)]].
  - by apply (Hhit ctx w []).
  - by eapply Hhit; [|exact Hg].
  - simpl in *. rewrite Hg in *.
    set (w1 := {| klass := klass w; next_id := S (next_id w) |}) in *.
    specialize (IH w1). destruct (calls envs w1) as [rs w2]. simpl in *.
    destruct i as [|i]; [simpl in Hi; congruence|].
    destruct j as [|j]; [simpl in Hj; congruence|].
    simpl in Hi, Hj. destruct (IH i j Hi Hj) as (? & ? & ?).
    split; [done|]. split; [intros; apply H1; lia|done].
Qed.

(** A failed call, the first successful one, and two later calls while
    the key file has gone missing again. *)
Lemma context_is_shared_witness :
  ∃ ctx : SSL.Context,
    (calls (H := openssl_1_0)
       [Samples.no_key; Samples.good_files; Samples.no_key; Samples.mismatch]
       Samples.fresh).1 !! 1
      = Some (Some ctx, [EvPrint MsgCreating; EvNewContext 1; EvPrint MsgCreated])
    ∧ (calls (H := openssl_1_0)
         [Samples.no_key; Samples.good_files; Samples.no_key; Samples.mismatch]
         Samples.fresh).1 !! 3
      = Some (Some ctx, [])
    ∧ SSL.ctx_id ctx = 1.
Proof.
  eexists. split; [reflexivity|].
  assert (∃ tr, (calls (H := openssl_1_0)
            [Samples.no_key; Samples.good_files; Samples.no_key; Samples.mismatch]
            Samples.fresh).1 !! 3 =
          Some (Some (SSL.Build_Context 1 SSL.SSLv23_METHOD 385875968
                        (Some "key.pem") (Some "cert.pem")), tr)) as [tr Hj]
    by (eexists; reflexivity).
  destruct (context_is_shared (H := openssl_1_0)
              [Samples.no_key; Samples.good_files; Samples.no_key; Samples.mismatch]
              Samples.fresh 1 3 _ _ _ tr eq_refl Hj) as (_ & Hlate & _).
  rewrite Hj, (Hlate ltac:(lia)). done.
Defined.

(** C7. Every context the accessor hands out, in any sequence of calls
    that starts with an empty cache, has the options the fresh context came
    with extended by exactly the four flags of line 87, so that SSLv2,
    SSLv3, TLS 1.0 and TLS 1.1 are switched off in it. *)
Theorem old_protocols_disabled `{OpenSSL} (envs : list SSL.Env) (w : World)
    (i : nat) (ctx : SSL.Context) (tr : list Event) :
  _ssl_context (klass w) = None →
  (calls envs w).1 !! i = Some (Some ctx, tr) →
  SSL.ctx_options ctx =
    Z.lor default_options
      (Z.lor (Z.lor (Z.lor OP_NO_SSLv2 OP_NO_SSLv3) OP_NO_TLSv1) OP_NO_TLSv1_1)
  ∧ SSL.has_option (SSL.ctx_options ctx) OP_NO_SSLv2
  ∧ SSL.has_option (SSL.ctx_options ctx) OP_NO_SSLv3
  ∧ SSL.has_option (SSL.ctx_options ctx) OP_NO_TLSv1
  ∧ SSL.has_option (SSL.ctx_options ctx) OP_NO_TLSv1_1.
Proof.
  intros Hc Hi.
  assert (SSL.ctx_options ctx = Z.lor default_options no_old_protocols) as Ho.
  { revert w i Hc Hi. induction envs as [|env envs IH]; intros w i Hc Hi.
    { simpl in Hi. by rewrite lookup_nil in Hi. }
    destruct (get_ssl_context_cases env w)
      as [(c & Hc' & _)|[(c & _ & Hb & Hg)|(e & _ & _ & Hg)]].
    - congruence.
    - apply build_context_inr in Hb as [_ Hb].
      simpl in Hi. rewrite Hg in Hi.
      set (w1 := {| klass := set_ssl_context c (klass w);
                    next_id := S (next_id w) |}) in *.
      pose proof (calls_cached_lookup envs w1 c) as Hlk.
      destruct (calls envs w1) as [rs w2]. simpl in *.
      destruct i as [|i]; simpl in Hi; [congruence|].
      specialize (Hlk _ _ eq_refl Hi). congruence.
    - simpl in Hi. rewrite Hg in Hi.
      set (w1 := {| klass := klass w; next_id := S (next_id w) |}) in *.
      specialize (IH w1). destruct (calls envs w1) as [rs w2]. simpl in *.
      destruct i as [|i]; simpl in Hi; [congruence|].
      by apply (IH i). }
  split; [exact Ho|]. rewrite Ho. unfold no_old_protocols.
  repeat split; apply has_option_lor_r.
  - do 3 apply has_option_lor_l. apply has_option_same.
  - do 2 apply has_option_lor_l. apply has_option_lor_r, has_option_same.
  - apply has_option_lor_l, has_option_lor_r, has_option_same.
  - apply has_option_lor_r, has_option_same.
Qed.

(** With the constants of OpenSSL 1.0 the context built for the second
    caller has options [0x17000000]: the four old versions are off, and
    the flags that would switch off TLS 1.2 and TLS 1.3 are not set. *)
Lemma old_protocols_disabled_witness :
  ∃ ctx : SSL.Context,
    (calls (H := openssl_1_0) [Samples.no_key; Samples.good_files]
       Samples.fresh).1 !! 1
      = Some (Some ctx, [EvPrint MsgCreating; EvNewContext 1; EvPrint MsgCreated])
    ∧ SSL.ctx_options ctx = 0x17000000%Z
    ∧ SSL.has_option (SSL.ctx_options ctx) 0x01000000%Z
    ∧ SSL.has_option (SSL.ctx_options ctx) 0x02000000%Z
    ∧ SSL.has_option (SSL.ctx_options ctx) 0x04000000%Z
    ∧ SSL.has_option (SSL.ctx_options ctx) 0x10000000%Z
    ∧ Z.land (SSL.ctx_options ctx) (OP_NO_TLSv1_2 (OpenSSL := openssl_1_0)) = 0%Z
    ∧ Z.land (SSL.ctx_options ctx) (OP_NO_TLSv1_3 (OpenSSL := openssl_1_0)) = 0%Z.
Proof.
  eexists. split; [reflexivity|].
  destruct (old_protocols_disabled (H := openssl_1_0)
              [Samples.no_key; Samples.good_files] Samples.fresh 1 _ _
              eq_refl eq_refl) as (Ho & H2 & H3 & H10 & H11).
  split; [exact Ho|]. split; [exact H2|]. split; [exact H3|].
  split; [exact H10|]. split; [exact H11|]. split; reflexivity.
Defined.

(** ** Traces *)

Lemma total_wait_app (a b : list Event) :
  total_wait (a ++ b) = total_wait a + total_wait b.
Proof.
  induction a as [|e a IH]; [done|].
  destruct e; simpl; rewrite ?IH; lia.
Qed.

Lemma total_wait_quiet (tr : list Event) :
  forallb quiet tr = true → total_wait tr = 0.
Proof.
  induction tr as [|e tr IH]; [done|].
  destruct e; simpl; try done; auto.
Qed.

Lemma waits_app (a b : list Event) : waits (a ++ b) = waits a + waits b.
Proof. unfold waits. by rewrite filter_app, length_app. Qed.

Lemma waits_quiet (tr : list Event) : forallb quiet tr = true → waits tr = 0.
Proof.
  unfold waits. induction tr as [|e tr IH]; [done|].
  destruct e; simpl; try done; auto.
Qed.

Lemma next_wait_quiet (tr : list Event) :
  forallb quiet tr = true → next_wait tr = None.
Proof.
  induction tr as [|e tr IH]; [done|].
  destruct e; simpl; try done; auto.
Qed.

Lemma next_wait_quiet_r (tr post : list Event) :
  forallb quiet post = true → next_wait (tr ++ post) = next_wait tr.
Proof.
  intros Hq. induction tr as [|e tr IH]; simpl.
  - by apply next_wait_quiet.
  - destruct e; simpl; auto.
Qed.

Lemma attempts_quiet_l (pre tr : list Event) :
  forallb quiet pre = true → attempts (pre ++ tr) = attempts tr.
Proof.
  induction pre as [|e pre IH]; [done|].
  destruct e; simpl; try done; auto.
Qed.

Lemma attempts_quiet_r (tr post : list Event) :
  forallb quiet post = true → attempts (tr ++ post) = attempts tr.
Proof.
  intros Hq. induction tr as [|e tr IH]; simpl.
  - rewrite <- (app_nil_r post). by apply attempts_quiet_l.
  - destruct e; simpl; rewrite ?IH, ?next_wait_quiet_r; auto.
Qed.

Lemma quiet_not_select (tr : list Event) rl wl xl t d :
  forallb quiet tr = true → EvSelect rl wl xl t d ∉ tr.
Proof.
  intros Hq Hin. rewrite forallb_forall in Hq.
  apply list_elem_of_In, Hq in Hin. done.
Qed.

(** Waits that each last at most [tmo] add up to at most [tmo] per wait. *)
Lemma total_wait_loop_events (s : Sock) (tmo : nat) (tr : list Event) :
  Forall (loop_event s tmo) tr → total_wait tr ≤ waits tr * tmo.
Proof.
  unfold waits. induction 1 as [|e tr He _ IH]; [done|].
  destruct e; simpl in *; try done.
  destruct He as (_ & _ & _ & _ & Hd). lia.
Qed.

(** ** The handshake loop *)

Lemma select_readable_blocked conn k tmo :
  (select_readable conn k tmo).2 ≤ tmo.
Proof.
  unfold select_readable. destruct (readable_after conn k) as [d|]; simpl; [|lia].
  destruct (d <=? tmo) eqn:Hd; simpl; [|lia]. by apply Nat.leb_le.
Qed.

Lemma handshake_loop_events fuel conn s tmo k r tr :
  handshake_loop fuel conn s tmo k = Some (r, tr) →
  Forall (loop_event s tmo) tr.
Proof.
  revert k r tr. induction fuel as [|fuel IH]; intros k r tr; simpl; [done|].
  destruct (do_handshake conn k).
  - intros [= <- <-]. repeat constructor.
  - pose proof (select_readable_blocked conn k tmo) as Hd.
    destruct (select_readable conn k tmo) as [ready d]. simpl in Hd.
    destruct ready.
    + destruct (handshake_loop fuel conn s tmo (S k)) as [[r' tr']|] eqn:Hl;
        [|done].
      intros [= <- <-]. apply IH in Hl.
      repeat (constructor; [by simpl|]). done.
    + intros [= <- <-]. repeat (constructor; [by simpl|]). constructor.
  - intros [= <- <-]. repeat constructor.
  - intros [= <- <-]. repeat constructor.
Qed.


(** A handshake that fails at attempt [k + n] leaves the loop started at
    attempt [k] with an exception, given fuel for [n + 1] attempts. *)
Lemma handshake_loop_fails fuel conn s tmo n k :
  (∀ j, j < n →
     do_handshake conn (k + j) = HsWantRead
     ∧ (select_readable conn (k + j) tmo).1 = true) →
  (do_handshake conn (k + n) = HsWantWrite
   ∨ (∃ cause, do_handshake conn (k + n) = HsError cause)
   ∨ (do_handshake conn (k + n) = HsWantRead
      ∧ (select_readable conn (k + n) tmo).1 = false)) →
  n < fuel →
  ∃ e tr, handshake_loop fuel conn s tmo k = Some (Some e, tr).
Proof.
  revert k fuel. induction n as [|n IH]; intros k fuel Hpre Hend Hfuel.
  - destruct fuel as [|fuel]; [lia|]. simpl.
    rewrite Nat.add_0_r in Hend.
    destruct Hend as [->|[[cause ->]|[-> Hsel]]]; eauto.
    destruct (select_readable conn k tmo) as [ready d]. simpl in Hsel.
    subst ready. eauto.
  - destruct fuel as [|fuel]; [lia|]. simpl.
    destruct (Hpre 0 ltac:(lia)) as [Hd Hsel]. rewrite Nat.add_0_r in Hd, Hsel.
    rewrite Hd. destruct (select_readable conn k tmo) as [ready d].
    simpl in Hsel. subst ready.
    destruct (IH (S k) fuel) as (e & tr & ->); [| |lia|eauto].
    + intros j Hj. replace (S k + j) with (k + S j) by lia. apply Hpre. lia.
    + by replace (S k + n) with (k + S n) by lia.
Qed.

(** ** The bootstrap of a connection *)

Lemma get_ssl_context_quiet `{OpenSSL} env w r w' tr :
  get_ssl_context env w = (r, w', tr) →
  forallb quiet tr = true
  ∧ timeout (klass w') = timeout (klass w)
  ∧ (∀ s, EvSuperInit s ∉ tr).
Proof.
  destruct (get_ssl_context_cases env w)
    as [(c & _ & ->)|[(c & _ & _ & ->)|(e & _ & _ & ->)]];
    intros [= <- <- <-]; (split; [done|]); (split; [done|]);
    intros s Hin; by repeat (apply elem_of_cons in Hin as [?|Hin]; [done|]);
    apply elem_of_nil in Hin.
Qed.

(** What [super().__init__] amounts to. *)
Lemma super_init_eq `{OpenSSL} env w s :
  super_init env w s =
    ((get_ssl_context env w).1.2,
     [EvPrint MsgCallingSuper; EvSuperInit s] ++ (get_ssl_context env w).2
       ++ [EvPrint MsgSuperDone; EvPrint MsgFinalState; EvPrint MsgRule]).
Proof.
  unfold super_init. by destruct (get_ssl_context env w) as [[r w'] evs].
Qed.

Lemma super_init_quiet `{OpenSSL} env w s :
  forallb quiet (super_init env w s).2 = true.
Proof.
  rewrite super_init_eq. simpl.
  destruct (get_ssl_context env w) as [[r w'] evs] eqn:Hg.
  apply get_ssl_context_quiet in Hg as (Hq & _). simpl.
  by rewrite forallb_app, Hq.
Qed.

(** A trace of [__init__] is the trace of one run of the handshake loop
    between two stretches without attempt or wait, or has no attempt and
    no wait at all. *)
Lemma init_shape `{OpenSSL} fuel env w conn c w' tr :
  __init__ fuel env w conn = Some (c, w', tr) →
  forallb quiet tr = true
  ∨ ∃ pre looptr post r ctx,
      tr = pre ++ looptr ++ post
      ∧ forallb quiet pre = true
      ∧ forallb quiet post = true
      ∧ handshake_loop fuel conn (SslSock (fd conn) ctx)
          (timeout (klass w)) 0 = Some (r, looptr).
Proof.
  unfold __init__.
  destruct (getpeername conn) as [peer|]; [|intros [= <- <- <-]; by left].
  destruct (implicit_tls (klass w)).
  2:{ pose proof (super_init_quiet env w (RawSock (fd conn))) as Hs.
      destruct (super_init env w (RawSock (fd conn))) as [w1 evs1].
      intros [= <- <- <-]. left. simpl in *. done. }
  unfold handshake.
  destruct (get_ssl_context env w) as [[r0 w0] evs] eqn:Hg.
  apply get_ssl_context_quiet in Hg as (Hq & Ht & _).
  destruct r0 as [ctx|].
  - rewrite Ht.
    destruct (handshake_loop fuel conn (SslSock (fd conn) (SSL.ctx_id ctx))
                (timeout (klass w)) 0) as [[r looptr]|] eqn:Hl; [|done].
    destruct r as [e|].
    + intros [= <- <- <-]; right.
      exists ([EvPrint MsgRule; EvPrint (MsgNewConnection peer);
               EvPrint MsgImplicitStart] ++ evs
              ++ [EvSslConnection (SSL.ctx_id ctx) (fd conn); EvSetAcceptState]),
        looptr, (handshake_failed e conn), (Some e), (SSL.ctx_id ctx).
      split; [by rewrite <- !app_assoc|].
      rewrite !forallb_app, Hq. done.
    + pose proof (super_init_quiet env w0
                    (SslSock (fd conn) (SSL.ctx_id ctx))) as Hs.
      destruct (super_init env w0 (SslSock (fd conn) (SSL.ctx_id ctx)))
        as [w2 evs2].
      intros [= <- <- <-]; right.
      exists ([EvPrint MsgRule; EvPrint (MsgNewConnection peer);
               EvPrint MsgImplicitStart] ++ evs
              ++ [EvSslConnection (SSL.ctx_id ctx) (fd conn); EvSetAcceptState]),
        looptr, ([EvPrint MsgHandshakeComplete] ++ evs2),
        None, (SSL.ctx_id ctx).
      split; [by rewrite <- !app_assoc|].
      simpl in Hs. rewrite !forallb_app, Hq. simpl. done.
  - intros [= <- <- <-]. left.
    simpl. rewrite !forallb_app, Hq. done.
Qed.




Lemma handshake_no_super_init `{OpenSSL} fuel env w conn r w1 tr0 :
  handshake fuel env w conn = Some (r, w1, tr0) → ∀ s, EvSuperInit s ∉ tr0.
Proof.
  unfold handshake.
  destruct (get_ssl_context env w) as [[r0 w0] evs] eqn:Hg.
  apply get_ssl_context_quiet in Hg as (_ & _ & Hevs).
  destruct r0 as [ctx|]; [|by intros [= <- <- <-]].
  destruct (handshake_loop fuel conn (SslSock (fd conn) (SSL.ctx_id ctx))
              (timeout (klass w0)) 0) as [[r1 looptr]|] eqn:Hl; [|done].
  apply handshake_loop_events in Hl. rewrite Forall_forall in Hl.
  assert (∀ s, EvSuperInit s ∉ evs ++
            [EvSslConnection (SSL.ctx_id ctx) (fd conn); EvSetAcceptState]
            ++ looptr) as Hno.
  { intros s Hin. apply elem_of_app in Hin as [Hin|Hin]; [by eapply Hevs|].
    do 2 (apply elem_of_cons in Hin as [?|Hin]; [done|]).
    by apply Hl in Hin. }
  destruct r1 as [e|]; intros [= <- <- <-]; [done|].
  intros s Hin. apply elem_of_app in Hin as [Hin|Hin]; [by eapply Hno|].
  apply elem_of_cons in Hin as [?|Hin]; [done|]. by apply elem_of_nil in Hin.
Qed.

(** When the [try] block raises, [__init__] prints the cause, closes the
    accepted connection and returns; [super().__init__] is not reached. *)
Lemma init_on_failure `{OpenSSL} fuel env w conn peer e w1 tr0 :
  implicit_tls (klass w) = true →
  getpeername conn = Some peer →
  handshake fuel env w conn = Some (inl e, w1, tr0) →
  ∃ tr,
    __init__ fuel env w conn = Some (Returned, w1, tr)
    ∧ last tr = Some (EvClose (RawSock (fd conn)))
    ∧ EvPrint (MsgCause e) ∈ tr
    ∧ (∀ s, EvSuperInit s ∉ tr)
    ∧ total_wait tr = total_wait tr0
    ∧ waits tr = waits tr0.
Proof.
  intros Himp Hpeer Hh. unfold __init__. rewrite Hpeer, Himp, Hh.
  eexists. split; [done|].
  split; [by rewrite !last_app|].
  split.
  { rewrite !elem_of_app. right; right; right. unfold handshake_failed.
    apply elem_of_cons; right. apply elem_of_cons; by left. }
  split.
  { intros s Hin. pose proof (handshake_no_super_init _ _ _ _ _ _ _ Hh s) as Hno.
    apply elem_of_app in Hin as [Hin|Hin].
    { do 2 (apply elem_of_cons in Hin as [?|Hin]; [done|]).
      by apply elem_of_nil in Hin. }
    apply elem_of_app in Hin as [Hin|Hin].
    { apply elem_of_cons in Hin as [?|Hin]; [done|]. by apply elem_of_nil in Hin. }
    apply elem_of_app in Hin as [Hin|Hin]; [done|].
    do 4 (apply elem_of_cons in Hin as [?|Hin]; [done|]).
    by apply elem_of_nil in Hin. }
  split.
  - rewrite !total_wait_app. simpl. lia.
  - rewrite !waits_app. unfold waits at 1 2 4. simpl. lia.
Qed.

Lemma handshake_without_context `{OpenSSL} fuel env w conn :
  (get_ssl_context env w).1.1 = None →
  ∃ w1 tr0, handshake fuel env w conn = Some (inl RuntimeError, w1, tr0).
Proof.
  unfold handshake. destruct (get_ssl_context env w) as [[r0 w0] evs].
  simpl. intros ->. eauto.
Qed.

Lemma handshake_loop_raises `{OpenSSL} fuel env w conn ctx e looptr :
  (get_ssl_context env w).1.1 = Some ctx →
  handshake_loop fuel conn (SslSock (fd conn) (SSL.ctx_id ctx))
    (timeout (klass w)) 0 = Some (Some e, looptr) →
  ∃ w1 tr0,
    handshake fuel env w conn = Some (inl e, w1, tr0)
    ∧ total_wait tr0 = total_wait looptr
    ∧ waits tr0 = waits looptr.
Proof.
  unfold handshake.
  destruct (get_ssl_context env w) as [[r0 w0] evs] eqn:Hg.
  apply get_ssl_context_quiet in Hg as (Hq & Ht & _).
  simpl. intros -> Hl. rewrite Ht, Hl. eexists _, _. split; [done|].
  rewrite !total_wait_app, !waits_app, total_wait_quiet, waits_quiet by done.
  done.
Qed.

(** C2 (as amended). Every readiness wait of a handshake is given the
    whole configured timeout [T], not what is left of it, and lasts at most
    [T]; the waits of a run therefore add up to at most [T] per wait. For a
    client whose first attempt asks for readability and whose socket never
    becomes readable, the engine gives up after one wait of exactly [T]:
    [__init__] reports the timeout, closes the accepted connection last
    and returns without reaching [super().__init__]. *)
Theorem each_wait_bounded_by_timeout `{OpenSSL}
    (env : SSL.Env) (w : World) (conn : Conn) :
  (∀ fuel c w' tr,
     __init__ fuel env w conn = Some (c, w', tr) →
     (∀ rl wl xl t d, EvSelect rl wl xl t d ∈ tr →
        t = timeout (klass w) ∧ d ≤ timeout (klass w))
     ∧ total_wait tr ≤ waits tr * timeout (klass w))
  ∧ (implicit_tls (klass w) = true →
     is_Some (getpeername conn) →
     is_Some (get_ssl_context env w).1.1 →
     do_handshake conn 0 = HsWantRead →
     (∀ k, readable_after conn k = None) →
     ∀ fuel, 0 < fuel →
     ∃ w' tr,
       __init__ fuel env w conn = Some (Returned, w', tr)
       ∧ total_wait tr = timeout (klass w)
       ∧ waits tr = 1
       ∧ EvPrint (MsgCause TimeoutError) ∈ tr
       ∧ last tr = Some (EvClose (RawSock (fd conn)))
       ∧ ∀ s, EvSuperInit s ∉ tr).
Proof.
  split.
  - intros fuel c w' tr Hrun.
    destruct (init_shape _ _ _ _ _ _ _ Hrun)
      as [Hq|(pre & looptr & post & r & ctx & -> & Hpre & Hpost & Hl)].
    + split; [|rewrite total_wait_quiet by done; lia].
      intros rl wl xl t d Hin. by apply quiet_not_select in Hin.
    + apply handshake_loop_events in Hl. split.
      * intros rl wl xl t d Hin.
        apply elem_of_app in Hin as [Hin|Hin];
          [by apply quiet_not_select in Hin|].
        apply elem_of_app in Hin as [Hin|Hin];
          [|by apply quiet_not_select in Hin].
        rewrite Forall_forall in Hl. specialize (Hl _ Hin).
        destruct Hl as (_ & _ & _ & -> & Hd). done.
      * rewrite !total_wait_app, !waits_app.
        rewrite (total_wait_quiet pre), (total_wait_quiet post) by done.
        rewrite (waits_quiet pre), (waits_quiet post) by done.
        apply total_wait_loop_events in Hl. lia.
  - intros Himp [peer Hpeer] [ctx Hctx] Hfirst Hnever fuel Hfuel.
    destruct fuel as [|fuel]; [lia|].
    destruct (handshake_loop_raises (S fuel) env w conn ctx TimeoutError
                [EvPrint MsgPerforming; EvDoHandshake HsWantRead;
                 EvPrint (MsgWantRead (timeout (klass w)));
                 EvSelect [SslSock (fd conn) (SSL.ctx_id ctx)] [] []
                   (timeout (klass w)) (timeout (klass w))])
      as (w1 & tr0 & Hh & Hwait & Hwaits); [done| |].
    { simpl. unfold select_readable. by rewrite Hfirst, Hnever. }
    destruct (init_on_failure _ _ _ _ _ _ _ _ Himp Hpeer Hh)
      as (tr & Hrun & Hlast & Hcause & Hsuper & Htw & Hw).
    exists w1, tr. split; [done|].
    split; [rewrite Htw, Hwait; simpl; lia|].
    split; [by rewrite Hw, Hwaits|]. done.
Qed.

Lemma each_wait_bounded_by_timeout_witness :
  ∃ w' tr,
    __init__ (H := openssl_1_0) 1 Samples.good_files Samples.fresh
      Samples.silent = Some (Returned, w', tr)
    ∧ total_wait tr = 300
    ∧ last tr = Some (EvClose (RawSock 9)).
Proof.
  destruct (proj2 (each_wait_bounded_by_timeout (H := openssl_1_0)
                     Samples.good_files Samples.fresh Samples.silent)
              eq_refl (mk_is_Some _ _ eq_refl) (mk_is_Some _ _ eq_refl)
              eq_refl (λ _, eq_refl) 1 (le_n 1))
    as (w' & tr & Hrun & Htw & _ & _ & Hlast & _).
  exists w', tr. done.
Defined.

(** C2 as stated fails: with a timeout of 300 the client answers each of
    its two round trips after 200; both waits are given the full 300, the
    second one although only 100 are left, and the handshake completes
    after a total wait of 400. *)
Lemma wait_bounded_by_remaining_time_counterexample :
  ∃ w' tr,
    __init__ (H := openssl_1_0) 5 Samples.good_files Samples.fresh
      Samples.slow_client = Some (Returned, w', tr)
    ∧ timeout (klass Samples.fresh) = 300
    ∧ filter is_select tr = [EvSelect [SslSock 8 0] [] [] 300 200;
                             EvSelect [SslSock 8 0] [] [] 300 200]
    ∧ total_wait tr = 400
    ∧ ¬ total_wait tr ≤ timeout (klass Samples.fresh).
Proof.
  eexists _, _. split; [reflexivity|]. split; [reflexivity|].
  split; [reflexivity|]. split; [reflexivity|].
  change (¬ 400 ≤ 300). lia.
Qed.

(** C4. In implicit mode, when the handshake fails -- no context can be
    had, or the loop is left at attempt [n] by an error of the TLS library,
    by a request for writability or by a wait that times out -- [__init__]
    returns normally once it has fuel for these attempts: the exception
    does not leave it, the last thing it does is close the accepted raw
    connection, and [super().__init__] is never called. *)
Theorem handshake_failure_is_contained `{OpenSSL}
    (env : SSL.Env) (w : World) (conn : Conn) (peer : string) (n fuel : nat) :
  implicit_tls (klass w) = true →
  getpeername conn = Some peer →
  (get_ssl_context env w).1.1 = None ∨ fails_at conn (timeout (klass w)) n →
  n < fuel →
  ∃ w' tr e,
    __init__ fuel env w conn = Some (Returned, w', tr)
    ∧ EvPrint (MsgCause e) ∈ tr
    ∧ last tr = Some (EvClose (RawSock (fd conn)))
    ∧ ∀ s, EvSuperInit s ∉ tr.
Proof.
  intros Himp Hpeer Hfail Hfuel.
  assert (∃ e w1 tr0, handshake fuel env w conn = Some (inl e, w1, tr0))
    as (e & w1 & tr0 & Hh).
  { destruct ((get_ssl_context env w).1.1) as [ctx|] eqn:Hctx.
    - destruct Hfail as [|[Hpre Hend]]; [done|].
      destruct (handshake_loop_fails fuel conn
                  (SslSock (fd conn) (SSL.ctx_id ctx)) (timeout (klass w)) n 0)
        as (e & looptr & Hl); [done|done|done|].
      destruct (handshake_loop_raises _ _ _ _ _ _ _ Hctx Hl)
        as (w1 & tr0 & Hh & _). eauto.
    - destruct (handshake_without_context fuel env w conn Hctx)
        as (w1 & tr0 & Hh). eauto. }
  destruct (init_on_failure _ _ _ _ _ _ _ _ Himp Hpeer Hh)
    as (tr & Hrun & Hlast & Hcause & Hsuper & _).
  exists w1, tr, e. done.
Qed.

(** A client that sends one flight and then something that is not TLS:
    the loop is left at the second attempt. *)
Lemma handshake_failure_is_contained_witness :
  ∃ w' tr e,
    __init__ (H := openssl_1_0) 2 Samples.good_files Samples.fresh
      Samples.garbage = Some (Returned, w', tr)
    ∧ EvPrint (MsgCause e) ∈ tr
    ∧ last tr = Some (EvClose (RawSock 10))
    ∧ ∀ s, EvSuperInit s ∉ tr.
Proof.
  apply (handshake_failure_is_contained (H := openssl_1_0)
           Samples.good_files Samples.fresh Samples.garbage
           "10.0.0.5:50000" 1 2).
  - reflexivity.
  - reflexivity.
  - right. split.
    + intros k Hk. assert (k = 0) as -> by lia. split; reflexivity.
    + right; left. eexists. reflexivity.
  - lia.
Defined.

(** ** Startup *)

(** The build reads only the two file attributes of the class. *)
Lemma build_context_ext `{OpenSSL} env c c' id :
  keyfile c = keyfile c' → certfile c = certfile c' →
  build_context env c id = build_context env c' id.
Proof. unfold build_context. by intros -> ->. Qed.

Lemma configure_tls_no_context args :
  _ssl_context (configure_tls args initial) = None.
Proof.
  unfold configure_tls.
  destruct (truthy (Args.certfile args) && truthy (Args.keyfile args)); [|done].
  by destruct (Args.ftps_mode args) as [[]|].
Qed.


Lemma configure_tls_files args :
  (implicit_tls (configure_tls args initial)
   || tls_control_required (configure_tls args initial))
    = tls_required args
  ∧ (tls_required args = false →
       keyfile (configure_tls args initial) = None)
  ∧ timeout (configure_tls args initial) = timeout initial.
Proof.
  unfold configure_tls, tls_required.
  destruct (truthy (Args.certfile args) && truthy (Args.keyfile args));
    by destruct (Args.ftps_mode args) as [[]|].
Qed.

Lemma build_error_no_key `{OpenSSL} env c :
  keyfile c = None → build_error env c = Some TypeError.
Proof. unfold build_error, build_context. by intros ->. Qed.

(** The runs of [main], case by case. *)
Lemma main_cases `{OpenSSL} env args :
  (isdir env (Args.drive args) = false
   ∧ main env args =
       {| completion := Returned;
          world := {| klass := initial; next_id := 0 |}; server := None;
          trace := [EvConfigLogging; EvPrint (MsgNoDrive (Args.drive args))] |})
  ∨ (isdir env (Args.drive args) = true
     ∧ ∃ e, build_authorizer env args = inl e
       ∧ main env args =
           {| completion := Raised e;
              world := {| klass := configure_tls args initial; next_id := 0 |};
              server := None; trace := [EvConfigLogging] |})
  ∨ (isdir env (Args.drive args) = true
     ∧ ∃ a, build_authorizer env args = inr a
       ∧ ((∃ ctx,
             build_context (ssl_env env) (configure_tls args initial) 0
               = inr ctx
             ∧ build_context (ssl_env env) (configured env args a) 0 = inr ctx
             ∧ tls_required args = true
             ∧ ((bind_ok env (Args.host args) (Args.port args) = false
                 ∧ main env args =
                     {| completion := Raised OSError;
                        world := {| klass := set_ssl_context ctx
                                               (configured env args a);
                                    next_id := 1 |};
                        server := None;
                        trace := [EvConfigLogging; EvPrint MsgCreating;
                                  EvNewContext 0; EvPrint MsgCreated] |})
                ∨ (bind_ok env (Args.host args) (Args.port args) = true
                   ∧ main env args =
                       {| completion := Returned;
                          world := {| klass := set_ssl_context ctx
                                                 (configured env args a);
                                      next_id := 1 |};
                          server := Some (the_server args);
                          trace := [EvConfigLogging; EvPrint MsgCreating;
                                    EvNewContext 0; EvPrint MsgCreated;
                                    EvServerCreate (Args.host args)
                                      (Args.port args)]
                                   ++ starting args |})))
          ∨ (∃ e,
               build_error (ssl_env env) (configure_tls args initial) = Some e
               ∧ ((bind_ok env (Args.host args) (Args.port args) = false
                   ∧ main env args =
                       {| completion := Raised OSError;
                          world := {| klass := configured env args a;
                                      next_id := 1 |};
                          server := None;
                          trace := [EvConfigLogging; EvPrint MsgCreating;
                                    EvNewContext 0;
                                    EvPrint (MsgContextError e)] |})
                  ∨ (bind_ok env (Args.host args) (Args.port args) = true
                     ∧ tls_required args = false
                     ∧ main env args =
                         {| completion := Returned;
                            world := {| klass := configured env args a;
                                        next_id := 1 |};
                            server := Some (the_server args);
                            trace := [EvConfigLogging; EvPrint MsgCreating;
                                      EvNewContext 0;
                                      EvPrint (MsgContextError e);
                                      EvServerCreate (Args.host args)
                                        (Args.port args)]
                                     ++ starting args |})
                  ∨ (bind_ok env (Args.host args) (Args.port args) = true
                     ∧ tls_required args = true
                     ∧ main env args =
                         {| completion := Returned;
                            world := {| klass := configured env args a;
                                        next_id := 2 |};
                            server := Some (the_server args);
                            trace := [EvConfigLogging; EvPrint MsgCreating;
                                      EvNewContext 0;
                                      EvPrint (MsgContextError e);
                                      EvServerCreate (Args.host args)
                                        (Args.port args);
                                      EvPrint MsgCreating; EvNewContext 1;
                                      EvPrint (MsgContextError e);
                                      EvPrint MsgMainCritical] |}))))).
Proof.
  unfold main.
  destruct (isdir env (Args.drive args)); simpl; [|by left].
  right.
  destruct (build_authorizer env args) as [e|a]; [left; eauto|].
  right. split; [done|]. exists a. split; [done|].
  fold (configured env args a).
  destruct (configure_tls_files args) as (Hflag & Hnokey & _).
  assert (∀ id, build_context (ssl_env env) (configured env args a) id
                = build_context (ssl_env env) (configure_tls args initial) id)
    as Hext by (intros id; by apply build_context_ext).
  assert (_ssl_context (configured env args a) = None) as Hnone
    by apply configure_tls_no_context.
  assert (implicit_tls (configured env args a)
          || tls_control_required (configured env args a) = tls_required args)
    as Hflag' by exact Hflag.
  remember (configured env args a) as h eqn:Hh. clear Hh.
  unfold ThreadedFTPServer, check_and_serve, get_ssl_context. simpl.
  rewrite Hnone.
  destruct (build_context (ssl_env env) h 0) as [e|ctx] eqn:Hb.
  - right. exists e.
    assert (build_error (ssl_env env) (configure_tls args initial) = Some e)
      as He by (apply (build_context_inl _ _ 0); by rewrite <- Hext).
    split; [done|].
    destruct (bind_ok env (Args.host args) (Args.port args)); [|by left].
    right. simpl. rewrite Hflag', Hnone.
    destruct (tls_required args); [|by left].
    right. split; [done|]. split; [done|].
    rewrite Hext, (proj2 (build_context_inl _ _ 1 _) He). done.
  - left. exists ctx.
    assert (tls_required args = true) as Hreq.
    { destruct (tls_required args); [done|].
      rewrite Hext in Hb.
      pose proof (build_error_no_key (ssl_env env) _ (Hnokey eq_refl)) as He.
      apply (build_context_inl _ _ 0) in He. congruence. }
    rewrite <- Hext. split; [done|]. split; [done|]. split; [done|].
    destruct (bind_ok env (Args.host args) (Args.port args)); [|by left].
    right. simpl. by rewrite Hflag', Hreq.
Qed.

Ltac main_run env args :=
  destruct (main_cases env args)
    as [[Hdir Hrun]|[(Hdir & e0 & Hauth & Hrun)|(Hdir & a0 & Hauth &
         [(ctx0 & Hbuild & Hbuild' & Hreq & [[Hbind Hrun]|[Hbind Hrun]])
         |(e0 & Herr0 & [[Hbind Hrun]|[(Hbind & Hreq & Hrun)
                                      |(Hbind & Hreq & Hrun)]])])]];
  rewrite Hrun in *; clear Hrun; simpl in *.

Ltac not_in_list Hin :=
  repeat (apply elem_of_cons in Hin as [?|Hin]; [done|]);
  by apply elem_of_nil in Hin.

Ltac find_in Hin :=
  repeat match type of Hin with
  | _ ∈ _ :: _ => apply elem_of_cons in Hin as [?|Hin]; [done|]
  | _ ∈ [] => by apply elem_of_nil in Hin
  | _ ∈ _ ++ _ => apply elem_of_app in Hin as [Hin|Hin]
  | _ ∈ starting _ => unfold starting in Hin
  end; try done.

(** [main] builds the server with the ceilings of lines 142-143. *)
Lemma main_server `{OpenSSL} env args srv :
  server (main env args) = Some srv →
  srv = {| address := (Args.host args, Args.port args);
           max_cons := 256; max_cons_per_ip := 5 |}.
Proof. main_run env args; by intros [= <-]. Qed.

(** [serve_forever] is entered only with the server object built. *)
Lemma main_serving_has_server `{OpenSSL} env args :
  EvServeForever ∈ trace (main env args) → is_Some (server (main env args)).
Proof. main_run env args; intros Hin; by eauto || not_in_list Hin. Qed.

(** C3 (as amended). The handler requires TLS -- [implicit_tls] or
    [tls_control_required] is set -- only when both a certificate and a key
    file are given. When it does and the context cannot be built, [main]
    never enters [serve_forever], so no connection is accepted, and no
    context is cached. The listening socket is bound all the same: when
    startup gets as far as the server, its construction has tried the
    context a first time and bound the address, line 146 has tried the
    context a second time, and [main] has reported the failure and
    returned. *)
Theorem tls_failure_prevents_serving `{OpenSSL}
    (env : Env) (args : Args.t) (e : Exn) :
  (implicit_tls (configure_tls args initial)
   || tls_control_required (configure_tls args initial)) = true →
  build_error (ssl_env env) (configure_tls args initial) = Some e →
  truthy (Args.certfile args) = true
  ∧ truthy (Args.keyfile args) = true
  ∧ (EvServeForever ∉ trace (main env args))
  ∧ _ssl_context (klass (world (main env args))) = None
  ∧ (is_Some (server (main env args)) →
     completion (main env args) = Returned
     ∧ trace (main env args) =
         [EvConfigLogging;
          EvPrint MsgCreating; EvNewContext 0; EvPrint (MsgContextError e);
          EvServerCreate (Args.host args) (Args.port args);
          EvPrint MsgCreating; EvNewContext 1; EvPrint (MsgContextError e);
          EvPrint MsgMainCritical]).
Proof.
  intros Hon Herr.
  destruct (configure_tls_files args) as (Hflag & _).
  rewrite Hon in Hflag. symmetry in Hflag.
  pose proof Hflag as Hfiles. unfold tls_required in Hfiles.
  apply andb_true_iff in Hfiles as [Hcert Hkey].
  split; [done|]. split; [done|].
  pose proof (configure_tls_no_context args) as Hnone.
  main_run env args.
  - split; [intros Hin; not_in_list Hin|]. split; [done|]. by intros [? ?].
  - split; [intros Hin; not_in_list Hin|]. split; [done|]. by intros [? ?].
  - assert (build_error (ssl_env env) (configure_tls args initial) = None)
      by (unfold build_error; by rewrite Hbuild). congruence.
  - assert (build_error (ssl_env env) (configure_tls args initial) = None)
      by (unfold build_error; by rewrite Hbuild). congruence.
  - split; [intros Hin; not_in_list Hin|]. split; [done|]. by intros [? ?].
  - congruence.
  - assert (e0 = e) as -> by congruence.
    split; [intros Hin; not_in_list Hin|]. done.
Qed.

Lemma tls_failure_prevents_serving_witness :
  (EvServeForever ∉
     trace (main (H := openssl_1_0) (Samples.machine Samples.mismatch)
              (Samples.args None)))
  ∧ completion (main (H := openssl_1_0) (Samples.machine Samples.mismatch)
                  (Samples.args None)) = Returned.
Proof.
  destruct (tls_failure_prevents_serving (H := openssl_1_0)
              (Samples.machine Samples.mismatch) (Samples.args None)
              (SSLError "check_privatekey: key values mismatch")
              eq_refl eq_refl) as (_ & _ & Hno & _ & Hrest).
  split; [exact Hno|].
  exact (proj1 (Hrest (mk_is_Some _ _ eq_refl))).
Defined.

(** C3 as stated fails, twice over. In implicit mode with a key file that
    cannot be read, the listening socket is bound to 0.0.0.0:21 although
    no context can be built: only [serve_forever] is skipped. And with
    [--ftps-mode implicit] and a certificate but no key file, no context
    can be built either, and the server binds and serves. *)
Lemma tls_failure_after_bind_counterexample :
  (implicit_tls (configure_tls (Samples.args (Some Implicit)) initial) = true
   ∧ (get_ssl_context (H := openssl_1_0) Samples.no_key
        {| klass := configure_tls (Samples.args (Some Implicit)) initial;
           next_id := 0 |}).1.1 = None
   ∧ trace (main (H := openssl_1_0) (Samples.machine Samples.no_key)
              (Samples.args (Some Implicit)))
     = [EvConfigLogging;
        EvPrint MsgCreating; EvNewContext 0;
        EvPrint (MsgContextError (SSLError "use_privatekey_file: key.pem"));
        EvServerCreate "0.0.0.0" 21;
        EvPrint MsgCreating; EvNewContext 1;
        EvPrint (MsgContextError (SSLError "use_privatekey_file: key.pem"));
        EvPrint MsgMainCritical]
   ∧ ¬ (EvServerCreate "0.0.0.0" 21 ∉
          trace (main (H := openssl_1_0) (Samples.machine Samples.no_key)
                   (Samples.args (Some Implicit)))))
  ∧ (Args.ftps_mode MoreSamples.plain_args = Some Implicit
     ∧ (get_ssl_context (H := openssl_1_0) Samples.good_files
          {| klass := configure_tls MoreSamples.plain_args initial;
             next_id := 0 |}).1.1 = None
     ∧ trace (main (H := openssl_1_0) (Samples.machine Samples.good_files)
                MoreSamples.plain_args)
       = [EvConfigLogging;
          EvPrint MsgCreating; EvNewContext 0;
          EvPrint (MsgContextError TypeError);
          EvServerCreate "0.0.0.0" 2121;
          EvPrint (MsgStarting "0.0.0.0" 2121 "/srv/share");
          EvServeForever]
     ∧ ¬ (EvServeForever ∉
            trace (main (H := openssl_1_0) (Samples.machine Samples.good_files)
                     MoreSamples.plain_args))).
Proof.
  split.
  - split; [reflexivity|]. split; [reflexivity|]. split; [reflexivity|].
    intros Hnot. apply Hnot. apply (list_elem_of_lookup_2 _ 4). reflexivity.
  - split; [reflexivity|]. split; [reflexivity|]. split; [reflexivity|].
    intros Hnot. apply Hnot. apply (list_elem_of_lookup_2 _ 6). reflexivity.
Qed.

(** C8. With a certificate and a key file given and no [--ftps-mode], the
    handler is configured exactly as with [--ftps-mode explicit]: TLS is
    required on the control and on the data channel, implicit TLS is off,
    and the whole run of [main] is the run of the explicit configuration. *)
Theorem certificates_default_to_explicit `{OpenSSL}
    (env : Env) (args : Args.t) :
  truthy (Args.certfile args) = true →
  truthy (Args.keyfile args) = true →
  Args.ftps_mode args = None →
  tls_control_required (configure_tls args initial) = true
  ∧ tls_data_required (configure_tls args initial) = true
  ∧ implicit_tls (configure_tls args initial) = false
  ∧ configure_tls args initial =
      configure_tls (with_ftps_mode (Some Explicit) args) initial
  ∧ main env args = main env (with_ftps_mode (Some Explicit) args).
Proof.
  intros Hcert Hkey Hmode.
  assert (configure_tls args initial =
          configure_tls (with_ftps_mode (Some Explicit) args) initial) as Hcfg.
  { unfold configure_tls. simpl. by rewrite Hmode. }
  split; [|split; [|split; [|split]]]; try done.
  - unfold configure_tls. by rewrite Hcert, Hkey, Hmode.
  - unfold configure_tls. by rewrite Hcert, Hkey, Hmode.
  - unfold configure_tls. by rewrite Hcert, Hkey, Hmode.
  - unfold main. rewrite <- Hcfg. reflexivity.
Qed.

Lemma certificates_default_to_explicit_witness :
  tls_control_required (configure_tls (Samples.args None) initial) = true
  ∧ tls_data_required (configure_tls (Samples.args None) initial) = true
  ∧ main (H := openssl_1_0) (Samples.machine Samples.good_files)
      (Samples.args None)
    = main (H := openssl_1_0) (Samples.machine Samples.good_files)
        (Samples.args (Some Explicit)).
Proof.
  destruct (certificates_default_to_explicit (H := openssl_1_0)
              (Samples.machine Samples.good_files) (Samples.args None)
              eq_refl eq_refl eq_refl) as (Hc & Hd & _ & _ & Hmain).
  split; [exact Hc|]. split; [exact Hd|]. exact Hmain.
Defined.

(** C9 (as amended). The ceilings are not read from the startup
    configuration: whatever the arguments and the machine, a server that
    [main] builds has the global ceiling 256 and the per-address ceiling 5,
    and these are the ceilings in force whenever [serve_forever] is
    entered. *)
Theorem ceilings_are_fixed `{OpenSSL} (env : Env) (args : Args.t) :
  (∀ srv, server (main env args) = Some srv →
     max_cons srv = 256%Z ∧ max_cons_per_ip srv = 5%Z)
  ∧ (EvServeForever ∈ trace (main env args) →
     limits (main env args) = Some (256%Z, 5%Z)).
Proof.
  split.
  - intros srv Hsrv. by rewrite (main_server _ _ _ Hsrv).
  - intros Hin. apply main_serving_has_server in Hin as [srv Hsrv].
    unfold limits. rewrite Hsrv. by rewrite (main_server _ _ _ Hsrv).
Qed.

Lemma ceilings_are_fixed_witness :
  limits (main (H := openssl_1_0) (Samples.machine Samples.good_files)
            (Samples.args None)) = Some (256%Z, 5%Z).
Proof.
  apply (proj2 (ceilings_are_fixed (H := openssl_1_0)
                  (Samples.machine Samples.good_files) (Samples.args None))).
  apply (list_elem_of_lookup_2 _ 6). reflexivity.
Defined.

(** C9 as stated fails: no startup configuration makes the server apply
    a global ceiling of 100 and a per-address ceiling of 10. *)
Lemma ceilings_from_configuration_counterexample :
  ¬ ∃ (env : Env) (args : Args.t),
      limits (main (H := openssl_1_0) env args) = Some (100%Z, 10%Z).
Proof.
  intros (env & args & Hl). unfold limits in Hl.
  destruct (server (main env args)) as [srv|] eqn:Hsrv; [|done].
  rewrite (main_server _ _ _ Hsrv) in Hl. simpl in Hl. discriminate Hl.
Qed.

Lemma get_ssl_context_authorizer `{OpenSSL} env w r w' tr :
  get_ssl_context env w = (r, w', tr) →
  authorizer (klass w') = authorizer (klass w).
Proof.
  destruct (get_ssl_context_cases env w)
    as [(c & _ & ->)|[(c & _ & _ & ->)|(e & _ & _ & ->)]];
    by intros [= <- <- <-].
Qed.

(** C10. When exactly one of [--user] and [--password] is given, no
    account is registered for it: with the served path a directory, the
    authorizer is built without error and holds the anonymous entry alone
    when [--allow-anonymous] is set and nothing otherwise, and this is the
    authorizer of the handler class whenever [main] builds the server. *)
Theorem partial_credentials_are_dropped `{OpenSSL}
    (env : Env) (args : Args.t) :
  (is_Some (Args.user args) ∧ Args.password args = None)
  ∨ (Args.user args = None ∧ is_Some (Args.password args)) →
  isdir env (Args.drive args) = true →
  ∃ a : DummyAuthorizer.t,
    build_authorizer env args = inr a
    ∧ DummyAuthorizer.user_table a =
        (if Args.allow_anonymous args
         then {[ "anonymous" :=
                   {| DummyAuthorizer.pwd := "";
                      DummyAuthorizer.home := realpath env (Args.drive args);
                      DummyAuthorizer.perm := "elradfmw" |} ]}
         else ∅)
    ∧ (∀ name, name ≠ "anonymous" →
         DummyAuthorizer.user_table a !! name = None)
    ∧ (is_Some (server (main env args)) →
       authorizer (klass (world (main env args))) = Some a).
Proof.
  intros Hone Hisdir.
  assert (truthy (Args.user args) && truthy (Args.password args) = false)
    as Hpair.
  { destruct Hone as [[_ ->]|[-> _]]; simpl; [apply andb_false_r|done]. }
  assert (∃ a, build_authorizer env args = inr a
               ∧ DummyAuthorizer.user_table a =
                   (if Args.allow_anonymous args
                    then {[ "anonymous" :=
                              {| DummyAuthorizer.pwd := "";
                                 DummyAuthorizer.home :=
                                   realpath env (Args.drive args);
                                 DummyAuthorizer.perm := "elradfmw" |} ]}
                    else ∅)) as (a & Ha & Htab).
  { unfold build_authorizer. rewrite Hpair.
    destruct (Args.allow_anonymous args); [|by eexists].
    unfold DummyAuthorizer.add_anonymous, DummyAuthorizer.add_user,
      DummyAuthorizer.has_user. simpl.
    rewrite lookup_empty, bool_decide_eq_false_2 by (by intros [? ?]).
    rewrite Hisdir. simpl. eexists. split; [done|]. simpl.
    apply insert_empty. }
  exists a. split; [done|]. split; [done|]. split.
  - intros name Hname. rewrite Htab.
    destruct (Args.allow_anonymous args); [|apply lookup_empty].
    by apply lookup_singleton_ne.
  - main_run env args; intros [srv Hsrv]; try done; congruence.
Qed.

(** A user name without a password, anonymous access allowed. *)
Lemma partial_credentials_are_dropped_witness :
  ∃ a : DummyAuthorizer.t,
    build_authorizer (Samples.machine Samples.good_files)
      {| Args.drive := "/srv/share"; Args.host := "0.0.0.0"; Args.port := 21%Z;
         Args.user := Some "alice"; Args.password := None;
         Args.allow_anonymous := true; Args.ftps_mode := None;
         Args.certfile := None; Args.keyfile := None |} = inr a
    ∧ DummyAuthorizer.user_table a !! "alice" = None
    ∧ is_Some (DummyAuthorizer.user_table a !! "anonymous").
Proof.
  destruct (partial_credentials_are_dropped (H := openssl_1_0)
              (Samples.machine Samples.good_files)
              {| Args.drive := "/srv/share"; Args.host := "0.0.0.0";
                 Args.port := 21%Z;
                 Args.user := Some "alice"; Args.password := None;
                 Args.allow_anonymous := true; Args.ftps_mode := None;
                 Args.certfile := None; Args.keyfile := None |})
    as (a & Ha & Htab & Hother & _).
  - left. split; [by eexists|reflexivity].
  - reflexivity.
  - exists a. split; [exact Ha|]. split; [by apply Hother|].
    rewrite Htab. simpl. rewrite lookup_singleton_eq. by eexists.
Defined.

(** When [main] enters [serve_forever] with TLS required, the context is
    already cached: the handshakes of the connections accepted later only
    read it. *)
Lemma serving_with_tls_has_context `{OpenSSL} env args :
  EvServeForever ∈ trace (main env args) →
  (implicit_tls (klass (world (main env args)))
   || tls_control_required (klass (world (main env args)))) = true →
  is_Some (_ssl_context (klass (world (main env args)))).
Proof.
  destruct (configure_tls_files args) as (Hflag & _).
  main_run env args; intros Hin Hon; try (by eauto); try not_in_list Hin.
  congruence.
Qed.

(** * Further properties *)

(** ** The course of a handshake *)

Lemma outcomes_app (a b : list Event) : outcomes (a ++ b) = outcomes a ++ outcomes b.
Proof.
  induction a as [|e a IH]; [done|].
  destruct e; simpl; by rewrite ?IH.
Qed.

Lemma outcomes_loop_events (s : Sock) (tmo : nat) (tr : list Event) :
  Forall (loop_event s tmo) tr → outcomes tr = [].
Proof.
  induction 1 as [|e tr He _ IH]; [done|]. by destruct e.
Qed.

Lemma new_context_loop_events (s : Sock) (tmo : nat) (tr : list Event) id :
  Forall (loop_event s tmo) tr → EvNewContext id ∉ tr.
Proof.
  intros Hall Hin. rewrite Forall_forall in Hall. by apply Hall in Hin.
Qed.

(** After [n] attempts that ask for readability and get it in time, the
    loop goes on as its last round does: same exit, [n] more waits and
    attempts, and the time of the first [n] waits on top. *)
Lemma handshake_loop_prefix fuel conn s tmo n k r tr1 :
  (∀ j, j < n →
     do_handshake conn (k + j) = HsWantRead
     ∧ (select_readable conn (k + j) tmo).1 = true) →
  handshake_loop 1 conn s tmo (k + n) = Some (r, tr1) →
  n < fuel →
  ∃ tr,
    handshake_loop fuel conn s tmo k = Some (r, tr)
    ∧ waits tr = n + waits tr1
    ∧ total_wait tr = sum_delays conn tmo k n + total_wait tr1
    ∧ length (attempts tr) = n + length (attempts tr1).
Proof.
  revert k fuel. induction n as [|n IH]; intros k fuel Hpre Hlast Hfuel.
  - destruct fuel as [|fuel]; [lia|]. rewrite Nat.add_0_r in Hlast.
    exists tr1. split; [|done].
    simpl in *. destruct (do_handshake conn k); try done.
    destruct (select_readable conn k tmo) as [[] d]; done.
  - destruct fuel as [|fuel]; [lia|].
    destruct (Hpre 0 ltac:(lia)) as [Hd Hsel]. rewrite Nat.add_0_r in Hd, Hsel.
    destruct (IH (S k) fuel) as (tr & Hl & Hw & Ht & Ha); [| |lia|].
    { intros j Hj. replace (S k + j) with (k + S j) by lia. apply Hpre. lia. }
    { by replace (S k + n) with (k + S n) by lia. }
    simpl. rewrite Hd.
    destruct (select_readable conn k tmo) as [ready d] eqn:Hs.
    simpl in Hsel. subst ready. rewrite Hl.
    eexists. split; [done|].
    unfold waits in *. simpl.
    rewrite filter_cons_False by (simpl; tauto). rewrite Hw, Ht, Ha.
    split; [done|]. split; [lia|done].
Qed.

Lemma waits_cons_quiet (e : Event) (tr : list Event) :
  quiet e = true → waits (e :: tr) = waits tr.
Proof.
  intros Hq. change (e :: tr) with ([e] ++ tr).
  rewrite waits_app, waits_quiet; [done|]. simpl. by rewrite Hq.
Qed.

Lemma get_ssl_context_outcomes `{OpenSSL} env w :
  outcomes (get_ssl_context env w).2 = [].
Proof.
  by destruct (get_ssl_context_cases env w)
    as [(c & _ & ->)|[(c & _ & _ & ->)|(e & _ & _ & ->)]].
Qed.

(** What [handshake] makes of the exit of the loop. *)
Lemma handshake_of_loop `{OpenSSL} fuel env w conn ctx r looptr :
  (get_ssl_context env w).1.1 = Some ctx →
  handshake_loop fuel conn (SslSock (fd conn) (SSL.ctx_id ctx))
    (timeout (klass w)) 0 = Some (r, looptr) →
  ∃ tr0,
    handshake fuel env w conn =
      Some (match r with
            | Some e => inl e
            | None => inr (SslSock (fd conn) (SSL.ctx_id ctx))
            end, (get_ssl_context env w).1.2, tr0)
    ∧ waits tr0 = waits looptr
    ∧ total_wait tr0 = total_wait looptr
    ∧ attempts tr0 = attempts looptr
    ∧ outcomes tr0 = [].
Proof.
  unfold handshake.
  pose proof (get_ssl_context_outcomes env w) as Hoe.
  destruct (get_ssl_context env w) as [[r0 w0] evs] eqn:Hg.
  apply get_ssl_context_quiet in Hg as (Hq & Ht & _).
  simpl in *. intros -> Hl. rewrite Ht, Hl.
  pose proof (handshake_loop_events _ _ _ _ _ _ _ Hl) as Hev.
  destruct r as [e|]; eexists; (split; [done|]).
  - rewrite !total_wait_app, !waits_app, !outcomes_app.
    rewrite total_wait_quiet, waits_quiet, attempts_quiet_l by done.
    rewrite !waits_cons_quiet by done. simpl.
    rewrite Hoe, (outcomes_loop_events _ _ _ Hev). done.
  - rewrite !total_wait_app, !waits_app, !outcomes_app.
    rewrite (total_wait_quiet evs), (waits_quiet evs) by done.
    rewrite attempts_quiet_r, attempts_quiet_l by done.
    rewrite !waits_cons_quiet by done. simpl.
    rewrite Hoe, (outcomes_loop_events _ _ _ Hev).
    unfold waits at 2. simpl. split; [lia|]. split; [lia|done].
Qed.

Lemma get_ssl_context_some `{OpenSSL} env w ctx :
  (get_ssl_context env w).1.1 = Some ctx →
  _ssl_context (klass (get_ssl_context env w).1.2) = Some ctx.
Proof.
  destruct (get_ssl_context_cases env w)
    as [(c & Hc & ->)|[(c & _ & _ & ->)|(e & _ & _ & ->)]]; simpl;
    [by intros [= <-]|by intros [= <-]|done].
Qed.

Lemma handshake_result `{OpenSSL} fuel env w conn r w1 tr0 :
  handshake fuel env w conn = Some (r, w1, tr0) →
  w1 = (get_ssl_context env w).1.2
  ∧ outcomes tr0 = []
  ∧ (∀ id, EvNewContext id ∈ tr0 → EvNewContext id ∈ (get_ssl_context env w).2)
  ∧ (∀ s, r = inr s →
       ∃ ctx, (get_ssl_context env w).1.1 = Some ctx
              ∧ s = SslSock (fd conn) (SSL.ctx_id ctx)).
Proof.
  unfold handshake.
  pose proof (get_ssl_context_outcomes env w) as Hoe.
  destruct (get_ssl_context env w) as [[r0 w0] evs] eqn:Hg. simpl in *.
  destruct r0 as [ctx|]; [|by intros [= <- <- <-]].
  destruct (handshake_loop fuel conn (SslSock (fd conn) (SSL.ctx_id ctx))
              (timeout (klass w0)) 0) as [[r1 looptr]|] eqn:Hl; [|done].
  apply handshake_loop_events in Hl.
  pose proof (outcomes_loop_events _ _ _ Hl) as Hol.
  assert (∀ id, EvNewContext id ∈ evs ++
            [EvSslConnection (SSL.ctx_id ctx) (fd conn); EvSetAcceptState]
            ++ looptr → EvNewContext id ∈ evs) as Hnew.
  { intros id Hin. apply elem_of_app in Hin as [Hin|Hin]; [done|].
    do 2 (apply elem_of_cons in Hin as [?|Hin]; [done|]).
    by apply (new_context_loop_events _ _ _ _ Hl) in Hin. }
  destruct r1 as [e|]; intros [= <- <- <-]; (split; [done|]).
  - rewrite !outcomes_app, Hoe. simpl. rewrite Hol.
    split; [done|]. split; [done|]. done.
  - rewrite !outcomes_app, Hoe. simpl. rewrite Hol.
    split; [done|]. split.
    + intros id Hin. apply elem_of_app in Hin as [Hin|Hin]; [by apply Hnew|].
      apply elem_of_cons in Hin as [?|Hin]; [done|]. by apply elem_of_nil in Hin.
    + intros s [= <-]. eauto.
Qed.

(** A call of [get_ssl_context] with a context cached. *)
Lemma get_ssl_context_hit `{OpenSSL} env w ctx :
  _ssl_context (klass w) = Some ctx →
  get_ssl_context env w = (Some ctx, w, []).
Proof. intros Hc. unfold get_ssl_context. by rewrite Hc. Qed.

(** What [__init__] makes of the result of the [try] block. *)
Lemma init_of_handshake `{OpenSSL} fuel env w conn peer r w1 tr0 :
  implicit_tls (klass w) = true →
  getpeername conn = Some peer →
  handshake fuel env w conn = Some (r, w1, tr0) →
  outcomes tr0 = [] →
  ∃ tr,
    __init__ fuel env w conn = Some (Returned, w1, tr)
    ∧ outcomes tr = match r with
                    | inl _ => [EvClose (RawSock (fd conn))]
                    | inr s => [EvSuperInit s]
                    end
    ∧ waits tr = waits tr0
    ∧ total_wait tr = total_wait tr0
    ∧ attempts tr = attempts tr0
    ∧ match r with
      | inl e => EvPrint (MsgCause e) ∈ tr
      | inr _ => True
      end.
Proof.
  intros Himp Hpeer Hh Ho.
  destruct (handshake_result _ _ _ _ _ _ _ Hh) as (Hw1 & _ & _ & Hsock).
  unfold __init__. rewrite Hpeer, Himp, Hh.
  destruct r as [e|s].
  - eexists. split; [done|]. split; [|split; [|split; [|split]]].
    + by rewrite !outcomes_app, Ho.
    + rewrite !waits_app. unfold handshake_failed.
      repeat rewrite waits_cons_quiet by done.
      change (waits []) with 0. lia.
    + rewrite !total_wait_app. simpl. lia.
    + rewrite (attempts_quiet_l [_; _]), (attempts_quiet_l [_]) by done.
      by rewrite attempts_quiet_r.
    + rewrite !elem_of_app. right; right; right. unfold handshake_failed.
      apply elem_of_cons; right. apply elem_of_cons; by left.
  - destruct (Hsock s eq_refl) as (ctx & Hctx & ->).
    rewrite super_init_eq.
    rewrite (get_ssl_context_hit env w1 ctx)
      by (rewrite Hw1; by apply get_ssl_context_some).
    cbn [fst snd]. rewrite app_nil_l.
    eexists. split; [done|]. split; [|split; [|split; [|split]]].
    + by rewrite !outcomes_app, Ho.
    + rewrite !waits_app. unfold handshake_failed.
      repeat rewrite waits_cons_quiet by done.
      change (waits []) with 0. lia.
    + rewrite !total_wait_app. simpl. lia.
    + rewrite (attempts_quiet_l [_; _]), (attempts_quiet_l [_]) by done.
      by rewrite attempts_quiet_r.
    + done.
Qed.


Lemma select_readable_false conn k tmo :
  (select_readable conn k tmo).1 = false → (select_readable conn k tmo).2 = tmo.
Proof.
  unfold select_readable. destruct (readable_after conn k) as [d|]; [|done].
  by destruct (d <=? tmo).
Qed.

(** X1. In implicit mode, a client whose first [n] attempts ask for
    readability and get it in time and whose next attempt completes has its
    handshake completed, given fuel for these attempts: [__init__] makes
    [n + 1] attempts and [n] waits, blocks for exactly the sum of the
    client's [n] delays, hands the TLS connection bound to the cached
    context to [super().__init__] and closes nothing. *)
Theorem handshake_completes `{OpenSSL}
    (env : SSL.Env) (w : World) (conn : Conn) (peer : string)
    (ctx : SSL.Context) (n fuel : nat) :
  implicit_tls (klass w) = true →
  getpeername conn = Some peer →
  (get_ssl_context env w).1.1 = Some ctx →
  (∀ k, k < n →
     do_handshake conn k = HsWantRead
     ∧ (select_readable conn k (timeout (klass w))).1 = true) →
  do_handshake conn n = HsDone →
  n < fuel →
  ∃ w' tr,
    __init__ fuel env w conn = Some (Returned, w', tr)
    ∧ outcomes tr = [EvSuperInit (SslSock (fd conn) (SSL.ctx_id ctx))]
    ∧ length (attempts tr) = S n
    ∧ waits tr = n
    ∧ total_wait tr = sum_delays conn (timeout (klass w)) 0 n
    ∧ _ssl_context (klass w') = Some ctx.
Proof.
  intros Himp Hpeer Hctx Hpre Hdone Hfuel.
  destruct (handshake_loop_prefix fuel conn
              (SslSock (fd conn) (SSL.ctx_id ctx)) (timeout (klass w)) n 0
              None [EvPrint MsgPerforming; EvDoHandshake HsDone])
    as (looptr & Hl & Hw & Ht & Ha); [done| |done|].
  { simpl. by rewrite Hdone. }
  destruct (handshake_of_loop _ _ _ _ _ _ _ Hctx Hl)
    as (tr0 & Hh & Hw0 & Ht0 & Ha0 & Ho0).
  destruct (init_of_handshake _ _ _ _ _ _ _ _ Himp Hpeer Hh Ho0)
    as (tr & Hrun & Ho & Hw1 & Ht1 & Ha1 & _).
  eexists _, tr. split; [exact Hrun|]. split; [done|].
  split; [rewrite Ha1, Ha0, Ha; simpl; lia|].
  split; [rewrite Hw1, Hw0, Hw; unfold waits; simpl; lia|].
  split; [rewrite Ht1, Ht0, Ht; simpl; lia|].
  by apply get_ssl_context_some.
Qed.

Lemma handshake_completes_witness :
  ∃ w' tr,
    __init__ (H := openssl_1_0) 3 Samples.good_files Samples.fresh
      Samples.slow_client = Some (Returned, w', tr)
    ∧ outcomes tr = [EvSuperInit (SslSock 8 0)]
    ∧ length (attempts tr) = 3
    ∧ waits tr = 2
    ∧ total_wait tr = 400.
Proof.
  destruct (handshake_completes (H := openssl_1_0) Samples.good_files
              Samples.fresh Samples.slow_client "10.0.0.3:50000"
              (SSL.Build_Context 0 SSL.SSLv23_METHOD 385875968
                 (Some "key.pem") (Some "cert.pem")) 2 3)
    as (w' & tr & Hrun & Ho & Ha & Hw & Ht & _).
  - reflexivity.
  - reflexivity.
  - reflexivity.
  - intros k Hk. destruct k as [|[|k]]; [by split|by split|lia].
  - reflexivity.
  - lia.
  - exists w', tr. done.
Defined.

(** X2. In implicit mode, a client that answers [n] attempts in time and
    then leaves the next wait unanswered is given up on: [__init__] makes
    [n + 1] waits, the last of them for the whole timeout, so that it has
    blocked for the sum of the client's [n] delays plus the timeout when it
    reports the timeout and closes the accepted connection, which is all
    it does with it. *)
Theorem handshake_gives_up_after_silence `{OpenSSL}
    (env : SSL.Env) (w : World) (conn : Conn) (peer : string)
    (ctx : SSL.Context) (n fuel : nat) :
  implicit_tls (klass w) = true →
  getpeername conn = Some peer →
  (get_ssl_context env w).1.1 = Some ctx →
  (∀ k, k < n →
     do_handshake conn k = HsWantRead
     ∧ (select_readable conn k (timeout (klass w))).1 = true) →
  do_handshake conn n = HsWantRead →
  (select_readable conn n (timeout (klass w))).1 = false →
  n < fuel →
  ∃ w' tr,
    __init__ fuel env w conn = Some (Returned, w', tr)
    ∧ EvPrint (MsgCause TimeoutError) ∈ tr
    ∧ outcomes tr = [EvClose (RawSock (fd conn))]
    ∧ waits tr = S n
    ∧ total_wait tr =
        sum_delays conn (timeout (klass w)) 0 n + timeout (klass w).
Proof.
  intros Himp Hpeer Hctx Hpre Hread Hsilent Hfuel.
  destruct (handshake_loop_prefix fuel conn
              (SslSock (fd conn) (SSL.ctx_id ctx)) (timeout (klass w)) n 0
              (Some TimeoutError)
              [EvPrint MsgPerforming; EvDoHandshake HsWantRead;
               EvPrint (MsgWantRead (timeout (klass w)));
               EvSelect [SslSock (fd conn) (SSL.ctx_id ctx)] [] []
                 (timeout (klass w)) (timeout (klass w))])
    as (looptr & Hl & Hw & Ht & _); [done| |done|].
  { simpl. rewrite Hread.
    pose proof (select_readable_false _ _ _ Hsilent) as Hd.
    destruct (select_readable conn n (timeout (klass w))) as [ready d].
    simpl in *. by subst. }
  destruct (handshake_of_loop _ _ _ _ _ _ _ Hctx Hl)
    as (tr0 & Hh & Hw0 & Ht0 & _ & Ho0).
  destruct (init_of_handshake _ _ _ _ _ _ _ _ Himp Hpeer Hh Ho0)
    as (tr & Hrun & Ho & Hw1 & Ht1 & _ & Hcause).
  eexists _, tr. split; [exact Hrun|]. split; [done|]. split; [done|].
  split; [rewrite Hw1, Hw0, Hw; unfold waits; simpl; lia|].
  rewrite Ht1, Ht0, Ht. simpl. lia.
Qed.

Lemma handshake_gives_up_after_silence_witness :
  ∃ w' tr,
    __init__ (H := openssl_1_0) 3 Samples.good_files Samples.fresh
      MoreSamples.stalls = Some (Returned, w', tr)
    ∧ outcomes tr = [EvClose (RawSock 12)]
    ∧ waits tr = 3
    ∧ total_wait tr = 100 + 150 + 300.
Proof.
  destruct (handshake_gives_up_after_silence (H := openssl_1_0)
              Samples.good_files Samples.fresh MoreSamples.stalls
              "10.0.0.7:50000"
              (SSL.Build_Context 0 SSL.SSLv23_METHOD 385875968
                 (Some "key.pem") (Some "cert.pem")) 2 3)
    as (w' & tr & Hrun & _ & Ho & Hw & Ht).
  - reflexivity.
  - reflexivity.
  - reflexivity.
  - intros k Hk. destruct k as [|[|k]]; [by split|by split|lia].
  - reflexivity.
  - reflexivity.
  - lia.
  - exists w', tr. done.
Defined.

Lemma handshake_loop_endless conn s tmo :
  (∀ k, do_handshake conn k = HsWantRead
        ∧ (select_readable conn k tmo).1 = true) →
  ∀ fuel k, handshake_loop fuel conn s tmo k = None.
Proof.
  intros Hall fuel. induction fuel as [|fuel IH]; intros k; [done|].
  simpl. destruct (Hall k) as [-> Hsel].
  destruct (select_readable conn k tmo) as [ready d]. simpl in Hsel.
  subst ready. by rewrite IH.
Qed.

(** X3. The loop has no limit on the number of rounds: in implicit mode,
    with a context at hand, a client whose every attempt asks for
    readability and who sends something within the timeout each time keeps
    [__init__] in the loop for ever: no number of rounds makes it return. *)
Theorem handshake_can_run_for_ever `{OpenSSL}
    (env : SSL.Env) (w : World) (conn : Conn) :
  implicit_tls (klass w) = true →
  is_Some (getpeername conn) →
  is_Some (get_ssl_context env w).1.1 →
  (∀ k, do_handshake conn k = HsWantRead
        ∧ (select_readable conn k (timeout (klass w))).1 = true) →
  ∀ fuel, __init__ fuel env w conn = None.
Proof.
  intros Himp [peer Hpeer] [ctx Hctx] Hall fuel.
  unfold __init__, handshake. rewrite Hpeer, Himp.
  destruct (get_ssl_context env w) as [[r0 w0] evs] eqn:Hg.
  apply get_ssl_context_quiet in Hg as (_ & Ht & _).
  simpl in Hctx. subst r0. rewrite Ht.
  by rewrite handshake_loop_endless.
Qed.

Lemma handshake_can_run_for_ever_witness :
  __init__ (H := openssl_1_0) 1000 Samples.good_files Samples.fresh
    MoreSamples.dripping = None.
Proof.
  apply (handshake_can_run_for_ever (H := openssl_1_0)).
  - reflexivity.
  - by eexists.
  - by eexists.
  - intros k. by split.
Defined.

(** ** What a connection does to the process *)

(** [__init__] with implicit TLS off. *)
Lemma init_plain `{OpenSSL} fuel env w conn peer :
  getpeername conn = Some peer →
  implicit_tls (klass w) = false →
  __init__ fuel env w conn =
    Some (Returned, (get_ssl_context env w).1.2,
          [EvPrint MsgRule; EvPrint (MsgNewConnection peer);
           EvPrint MsgCallingSuper; EvSuperInit (RawSock (fd conn))]
          ++ (get_ssl_context env w).2
          ++ [EvPrint MsgSuperDone; EvPrint MsgFinalState; EvPrint MsgRule]).
Proof.
  intros Hpeer Himp. unfold __init__. rewrite Hpeer, Himp, super_init_eq. done.
Qed.

(** X4. A call of [__init__] that returns has done exactly one thing with
    the connection: it has closed the accepted socket, or it has handed one
    socket to [super().__init__] -- the accepted socket itself when implicit
    TLS is off, the TLS connection wrapped around it when it is on -- and
    never both. The call raises only when [getpeername] does, and then it
    has neither closed nor handed over anything. *)
Theorem connection_closed_or_handed_over `{OpenSSL}
    (fuel : nat) (env : SSL.Env) (w : World) (conn : Conn)
    (c : Completion) (w' : World) (tr : list Event) :
  __init__ fuel env w conn = Some (c, w', tr) →
  match c with
  | Returned =>
      is_Some (getpeername conn)
      ∧ (outcomes tr = [EvClose (RawSock (fd conn))]
           ∧ implicit_tls (klass w) = true
         ∨ outcomes tr = [EvSuperInit (RawSock (fd conn))]
           ∧ implicit_tls (klass w) = false
         ∨ ∃ ctx, outcomes tr = [EvSuperInit (SslSock (fd conn) (SSL.ctx_id ctx))]
                  ∧ implicit_tls (klass w) = true
                  ∧ _ssl_context (klass w') = Some ctx)
  | Raised e =>
      e = OSError ∧ getpeername conn = None ∧ outcomes tr = [] ∧ w' = w
  end.
Proof.
  intros Hrun.
  destruct (getpeername conn) as [peer|] eqn:Hpeer.
  2:{ unfold __init__ in Hrun. rewrite Hpeer in Hrun.
      by injection Hrun as <- <- <-. }
  destruct (implicit_tls (klass w)) eqn:Himp.
  2:{ rewrite (init_plain _ _ _ _ _ Hpeer Himp) in Hrun.
      injection Hrun as <- <- <-. split; [by eexists|]. right; left.
      split; [|done]. simpl.
      by rewrite outcomes_app, get_ssl_context_outcomes. }
  destruct (handshake fuel env w conn) as [[[r w1] tr0]|] eqn:Hh.
  2:{ unfold __init__ in Hrun. by rewrite Hpeer, Himp, Hh in Hrun. }
  destruct (handshake_result _ _ _ _ _ _ _ Hh) as (Hw1 & Ho0 & _ & Hsock).
  destruct (init_of_handshake _ _ _ _ _ _ _ _ Himp Hpeer Hh Ho0)
    as (tr' & Hrun' & Ho & _).
  rewrite Hrun in Hrun'. injection Hrun' as -> -> ->.
  split; [by eexists|].
  destruct r as [e|s]; [by left|]. right; right.
  destruct (Hsock s eq_refl) as (ctx & Hctx & ->).
  exists ctx. split; [done|]. split; [done|].
  rewrite Hw1. by apply get_ssl_context_some.
Qed.

Lemma connection_closed_or_handed_over_witness :
  __init__ (H := openssl_1_0) 5 Samples.good_files Samples.fresh
    MoreSamples.gone = Some (Raised OSError, Samples.fresh, [EvPrint MsgRule])
  ∧ ∃ w' tr,
      __init__ (H := openssl_1_0) 5 Samples.good_files Samples.fresh
        Samples.garbage = Some (Returned, w', tr)
      ∧ outcomes tr = [EvClose (RawSock 10)].
Proof.
  split; [reflexivity|].
  eexists _, _. split; [reflexivity|].
  destruct (connection_closed_or_handed_over (H := openssl_1_0) 5
              Samples.good_files Samples.fresh Samples.garbage _ _ _ eq_refl)
    as [_ [[Ho _]|[[_ Himp]|(ctx & Ho & _)]]].
  - exact Ho.
  - discriminate Himp.
  - discriminate Ho.
Defined.

(** The state a call of [__init__] leaves, and where its contexts come
    from: the one call of [get_ssl_context] that may find the cache
    empty. *)
Lemma init_world `{OpenSSL} fuel env w conn c w' tr :
  __init__ fuel env w conn = Some (c, w', tr) →
  (c = Raised OSError ∧ w' = w ∧ tr = [EvPrint MsgRule])
  ∨ (c = Returned
     ∧ w' = (get_ssl_context env w).1.2
     ∧ ∀ id, EvNewContext id ∈ tr →
             EvNewContext id ∈ (get_ssl_context env w).2).
Proof.
  intros Hrun.
  destruct (getpeername conn) as [peer|] eqn:Hpeer.
  2:{ unfold __init__ in Hrun. rewrite Hpeer in Hrun.
      injection Hrun as <- <- <-. by left. }
  right.
  destruct (implicit_tls (klass w)) eqn:Himp.
  2:{ rewrite (init_plain _ _ _ _ _ Hpeer Himp) in Hrun.
      injection Hrun as <- <- <-. split; [done|]. split; [done|].
      intros id Hin. find_in Hin. }
  unfold __init__ in Hrun. rewrite Hpeer, Himp in Hrun.
  destruct (handshake fuel env w conn) as [[[r w1] tr0]|] eqn:Hh; [|done].
  destruct (handshake_result _ _ _ _ _ _ _ Hh) as (Hw1 & _ & Hnew & Hsock).
  destruct r as [e|s].
  - injection Hrun as <- <- <-. split; [done|]. split; [done|].
    intros id Hin. apply Hnew. unfold handshake_failed in Hin. find_in Hin.
  - destruct (Hsock s eq_refl) as (ctx & Hctx & ->).
    rewrite super_init_eq in Hrun.
    rewrite (get_ssl_context_hit env w1 ctx) in Hrun
      by (rewrite Hw1; by apply get_ssl_context_some).
    cbn [fst snd] in Hrun. rewrite app_nil_l in Hrun.
    injection Hrun as <- <- <-. split; [done|]. split; [done|].
    intros id Hin. apply Hnew. find_in Hin.
Qed.



(** ** Building the context *)

(** X6. With nothing cached, [get_ssl_context] hands out a context exactly
    when the class names a key and a certificate file, both load and the
    key belongs to the certificate; the context then carries these two
    paths and is what the class caches. A build that stops at any of the
    three steps leaves nothing behind. *)
Theorem context_built_iff_files_verified `{OpenSSL}
    (env : SSL.Env) (w : World) :
  _ssl_context (klass w) = None →
  (is_Some (get_ssl_context env w).1.1 ↔
     ∃ k f, keyfile (klass w) = Some k ∧ certfile (klass w) = Some f
            ∧ SSL.privatekey_file_ok env k = true
            ∧ SSL.certificate_file_ok env f = true
            ∧ SSL.privatekey_matches env k f = true)
  ∧ (∀ ctx, (get_ssl_context env w).1.1 = Some ctx →
       SSL.ctx_privatekey ctx = keyfile (klass w)
       ∧ SSL.ctx_certificate ctx = certfile (klass w)
       ∧ _ssl_context (klass (get_ssl_context env w).1.2) = Some ctx)
  ∧ ((get_ssl_context env w).1.1 = None →
       _ssl_context (klass (get_ssl_context env w).1.2) = None).
Proof.
  intros Hc. unfold get_ssl_context. rewrite Hc.
  unfold build_context, SSL.use_privatekey_file, SSL.use_certificate_file,
    SSL.check_privatekey.
  destruct (keyfile (klass w)) as [k|]; simpl.
  2:{ split; [|split; [done|done]]. split; [by intros [? ?]|].
      by intros (k & f & ? & _). }
  destruct (SSL.privatekey_file_ok env k) eqn:Hk; simpl.
  2:{ split; [|split; [done|done]]. split; [by intros [? ?]|].
      intros (k' & f & [= <-] & _ & ? & _). congruence. }
  destruct (certfile (klass w)) as [f|]; simpl.
  2:{ split; [|split; [done|done]]. split; [by intros [? ?]|].
      by intros (k' & f & _ & ? & _). }
  destruct (SSL.certificate_file_ok env f) eqn:Hf; simpl.
  2:{ split; [|split; [done|done]]. split; [by intros [? ?]|].
      intros (k' & f' & _ & [= <-] & _ & ? & _). congruence. }
  destruct (SSL.privatekey_matches env k f) eqn:Hm; simpl.
  2:{ split; [|split; [done|done]]. split; [by intros [? ?]|].
      intros (k' & f' & [= <-] & [= <-] & _ & _ & ?). congruence. }
  split; [|split; [|done]].
  - split; [|by eexists]. intros _. by exists k, f.
  - by intros ctx [= <-].
Qed.

Lemma context_built_iff_files_verified_witness :
  is_Some (get_ssl_context (H := openssl_1_0) Samples.good_files
             Samples.fresh).1.1
  ∧ ¬ is_Some (get_ssl_context (H := openssl_1_0) Samples.mismatch
                 Samples.fresh).1.1.
Proof.
  split.
  - apply (proj1 (context_built_iff_files_verified (H := openssl_1_0)
                    Samples.good_files Samples.fresh eq_refl)).
    by exists "key.pem", "cert.pem".
  - intros Hsome.
    apply (proj1 (context_built_iff_files_verified (H := openssl_1_0)
                    Samples.mismatch Samples.fresh eq_refl)) in Hsome.
    destruct Hsome as (k & f & _ & _ & _ & _ & Hm). discriminate Hm.
Defined.

(** ** Configuring the handler *)

Lemma configure_tls_flags (args : Args.t) (c : cls) :
  implicit_tls (configure_tls args c) =
    match Args.ftps_mode args with
    | Some Implicit => tls_required args
    | _ => false
    end
  ∧ tls_control_required (configure_tls args c) =
      match Args.ftps_mode args with
      | Some Implicit => false
      | _ => tls_required args
      end
  ∧ tls_data_required (configure_tls args c) =
      tls_control_required (configure_tls args c).
Proof.
  unfold configure_tls, tls_required.
  destruct (truthy (Args.certfile args) && truthy (Args.keyfile args));
    by destruct (Args.ftps_mode args) as [[]|].
Qed.

Lemma configure_tls_required (args : Args.t) :
  implicit_tls (configure_tls args initial)
    || tls_control_required (configure_tls args initial) = tls_required args.
Proof.
  destruct (configure_tls_flags args initial) as (-> & -> & _).
  by destruct (Args.ftps_mode args) as [[]|], (tls_required args).
Qed.

(** X7. However the handler class stood before, lines 116-128 leave its
    TLS flags consistent: the control and data requirements are equal,
    implicit TLS and required explicit TLS exclude each other, one of the
    two is on exactly when both a certificate and a key file are given
    (implicit TLS only for [--ftps-mode implicit]), and whenever one is on
    the class holds the two non-empty file paths of the arguments. The
    cached context and the timeout are not touched. *)
Theorem tls_flags_consistent (args : Args.t) (c : cls) :
  tls_data_required (configure_tls args c)
    = tls_control_required (configure_tls args c)
  ∧ implicit_tls (configure_tls args c)
      && tls_control_required (configure_tls args c) = false
  ∧ implicit_tls (configure_tls args c)
      || tls_control_required (configure_tls args c) = tls_required args
  ∧ (implicit_tls (configure_tls args c) = true →
       Args.ftps_mode args = Some Implicit)
  ∧ (tls_required args = true →
       keyfile (configure_tls args c) = Args.keyfile args
       ∧ certfile (configure_tls args c) = Args.certfile args
       ∧ truthy (keyfile (configure_tls args c)) = true
       ∧ truthy (certfile (configure_tls args c)) = true)
  ∧ _ssl_context (configure_tls args c) = _ssl_context c
  ∧ timeout (configure_tls args c) = timeout c.
Proof.
  destruct (configure_tls_flags args c) as (Hi & Hc & Hd).
  split; [done|]. rewrite Hi, Hc.
  split; [by destruct (Args.ftps_mode args) as [[]|], (tls_required args)|].
  split; [by destruct (Args.ftps_mode args) as [[]|], (tls_required args)|].
  split; [by destruct (Args.ftps_mode args) as [[]|]|].
  unfold configure_tls, tls_required.
  destruct (truthy (Args.certfile args)) eqn:Hcert,
           (truthy (Args.keyfile args)) eqn:Hkey; simpl;
    (split; [|by destruct (Args.ftps_mode args) as [[]|]]); try done.
  intros _. by destruct (Args.ftps_mode args) as [[]|].
Qed.

(** ** Startup, step by step *)

(** What [main] leaves of the class when a file is missing. *)
Lemma main_world_plain `{OpenSSL} env args :
  tls_required args = false →
  keyfile (klass (world (main env args))) = None
  ∧ _ssl_context (klass (world (main env args))) = None
  ∧ implicit_tls (klass (world (main env args))) = false
  ∧ tls_control_required (klass (world (main env args))) = false
  ∧ tls_data_required (klass (world (main env args))) = false.
Proof.
  intros Hoff.
  assert (configure_tls args initial = initial) as Hcfg.
  { unfold configure_tls. unfold tls_required in Hoff. by rewrite Hoff. }
  main_run env args; rewrite ?Hcfg; try done; congruence.
Qed.

(** X8. Without both a certificate and a key file, [--ftps-mode] has no
    effect at all: the run of [main] is the same for every value of the
    flag, all three TLS flags of the handler stay off and no context is
    cached. The one context a run may allocate is the one that the
    construction of the server tries, which fails on the missing key path
    with a [TypeError] that is only printed. *)
Theorem mode_without_files_is_ignored `{OpenSSL}
    (env : Env) (args : Args.t) (m : option FtpsMode) :
  tls_required args = false →
  main env (with_ftps_mode m args) = main env args
  ∧ implicit_tls (klass (world (main env args))) = false
  ∧ tls_control_required (klass (world (main env args))) = false
  ∧ tls_data_required (klass (world (main env args))) = false
  ∧ _ssl_context (klass (world (main env args))) = None
  ∧ (∀ id, EvNewContext id ∈ trace (main env args) →
       id = 0
       ∧ EvPrint (MsgContextError TypeError) ∈ trace (main env args)).
Proof.
  intros Hoff.
  assert (∀ m', configure_tls (with_ftps_mode m' args) initial = initial)
    as Hcfg.
  { intros m'. unfold configure_tls. simpl.
    unfold tls_required in Hoff. by rewrite Hoff. }
  assert (configure_tls args initial = initial) as Hcfg0.
  { unfold configure_tls. unfold tls_required in Hoff. by rewrite Hoff. }
  split.
  { unfold main. rewrite Hcfg, Hcfg0. reflexivity. }
  destruct (main_world_plain env args Hoff) as (_ & Hnone & Hi & Hc & Hd).
  repeat (split; [done|]).
  pose proof (build_error_no_key (ssl_env env) (configure_tls args initial))
    as Htype. rewrite Hcfg0 in Htype. specialize (Htype eq_refl).
  clear Hnone Hi Hc Hd.
  main_run env args; intros id Hin; try (by find_in Hin); try congruence.
  - rewrite Hcfg0 in Herr0. assert (e0 = TypeError) as -> by congruence.
    apply elem_of_cons in Hin as [?|Hin]; [done|].
    apply elem_of_cons in Hin as [?|Hin]; [done|].
    apply elem_of_cons in Hin as [[= ->]|Hin]; [|by find_in Hin].
    split; [done|]. apply (list_elem_of_lookup_2 _ 3). reflexivity.
  - rewrite Hcfg0 in Herr0. assert (e0 = TypeError) as -> by congruence.
    apply elem_of_cons in Hin as [?|Hin]; [done|].
    apply elem_of_cons in Hin as [?|Hin]; [done|].
    apply elem_of_cons in Hin as [[= ->]|Hin]; [|by find_in Hin].
    split; [done|]. apply (list_elem_of_lookup_2 _ 3). reflexivity.
Qed.

Lemma mode_without_files_is_ignored_witness :
  main (H := openssl_1_0) (Samples.machine Samples.good_files)
    (with_ftps_mode None MoreSamples.plain_args)
  = main (H := openssl_1_0) (Samples.machine Samples.good_files)
      MoreSamples.plain_args
  ∧ implicit_tls (klass (world (main (H := openssl_1_0)
                                  (Samples.machine Samples.good_files)
                                  MoreSamples.plain_args))) = false.
Proof.
  destruct (mode_without_files_is_ignored (H := openssl_1_0)
              (Samples.machine Samples.good_files) MoreSamples.plain_args
              None eq_refl) as (Hsame & Himp & _).
  split; [exact Hsame|exact Himp].
Defined.

(** X9. [main] enters [serve_forever] exactly when the served path is a
    directory, the accounts register without error, the address binds and,
    if a certificate and a key file are given, the context builds. It then
    returns normally with the server constructed, and [serve_forever] is
    the last thing it does. *)
Theorem server_starts_iff `{OpenSSL} (env : Env) (args : Args.t) :
  (EvServeForever ∈ trace (main env args) ↔
     isdir env (Args.drive args) = true
     ∧ (∃ a, build_authorizer env args = inr a)
     ∧ bind_ok env (Args.host args) (Args.port args) = true
     ∧ (tls_required args = true →
        build_error (ssl_env env) (configure_tls args initial) = None))
  ∧ (EvServeForever ∈ trace (main env args) →
     completion (main env args) = Returned
     ∧ last (trace (main env args)) = Some EvServeForever
     ∧ EvServerCreate (Args.host args) (Args.port args)
         ∈ trace (main env args)).
Proof.
  main_run env args.
  - split; [split|]; [intros Hin; find_in Hin|intros (? & _); congruence
                     |intros Hin; find_in Hin].
  - split; [split|]; [intros Hin; find_in Hin
                     |intros (_ & [? ?] & _); congruence
                     |intros Hin; find_in Hin].
  - split; [split|]; [intros Hin; find_in Hin|intros (_ & _ & ? & _); congruence
                     |intros Hin; find_in Hin].
  - assert (build_error (ssl_env env) (configure_tls args initial) = None)
      as Hnone by (unfold build_error; by rewrite Hbuild).
    assert (EvServeForever ∈
      [EvConfigLogging; EvPrint MsgCreating; EvNewContext 0; EvPrint MsgCreated;
       EvServerCreate (Args.host args) (Args.port args);
       EvPrint (MsgStarting (Args.host args) (Args.port args) (Args.drive args));
       EvServeForever]) as Hin by (by apply (list_elem_of_lookup_2 _ 6)).
    split; [split; [by eauto 10|done]|]. intros _.
    split; [done|]. split; [done|]. by apply (list_elem_of_lookup_2 _ 4).
  - split; [split|]; [intros Hin; find_in Hin|intros (_ & _ & ? & _); congruence
                     |intros Hin; find_in Hin].
  - assert (EvServeForever ∈
      [EvConfigLogging; EvPrint MsgCreating; EvNewContext 0;
       EvPrint (MsgContextError e0);
       EvServerCreate (Args.host args) (Args.port args);
       EvPrint (MsgStarting (Args.host args) (Args.port args) (Args.drive args));
       EvServeForever]) as Hin by (by apply (list_elem_of_lookup_2 _ 6)).
    split; [split; [intros _|done]|].
    + repeat (split; [by eauto|]). congruence.
    + intros _. split; [done|]. split; [done|].
      by apply (list_elem_of_lookup_2 _ 4).
  - split; [split|]; [intros Hin; find_in Hin| |intros Hin; find_in Hin].
    intros (_ & _ & _ & Hnone). specialize (Hnone Hreq). congruence.
Qed.

(** ** From startup to the connections *)

(** The state in which [main] enters [serve_forever]. *)
Lemma main_serving `{OpenSSL} env args :
  EvServeForever ∈ trace (main env args) →
  ∃ a,
    isdir env (Args.drive args) = true
    ∧ build_authorizer env args = inr a
    ∧ bind_ok env (Args.host args) (Args.port args) = true
    ∧ ((tls_required args = false
        ∧ world (main env args) =
            {| klass := configured env args a; next_id := 1 |})
       ∨ (tls_required args = true
          ∧ ∃ ctx,
              SSL.ctx_id ctx = 0
              ∧ world (main env args) =
                  {| klass := set_ssl_context ctx (configured env args a);
                     next_id := 1 |})).
Proof.
  main_run env args; intros Hin; try (by find_in Hin).
  - exists a0. repeat (split; [done|]). right. split; [done|].
    exists ctx0. by apply build_context_inr in Hbuild as [-> _].
  - exists a0. repeat (split; [done|]). by left.
Qed.

Lemma main_world_implicit `{OpenSSL} env args :
  implicit_tls (klass (world (main env args))) =
    (isdir env (Args.drive args) && implicit_tls (configure_tls args initial)).
Proof. main_run env args; by rewrite Hdir. Qed.

(** X10. Once [main] serves in implicit mode, every connection is
    negotiated with the one context built at startup: whatever has become
    of the key and certificate files since, a call of [__init__] builds
    nothing, leaves the process state as [main] left it, and when it
    returns it has either closed the accepted socket or handed over the
    TLS connection made with that context. *)
Theorem connections_use_the_startup_context `{OpenSSL}
    (env : Env) (args : Args.t) :
  EvServeForever ∈ trace (main env args) →
  tls_required args = true →
  Args.ftps_mode args = Some Implicit →
  ∃ ctx,
    _ssl_context (klass (world (main env args))) = Some ctx
    ∧ SSL.ctx_id ctx = 0
    ∧ ∀ fuel env' conn c w' tr,
        __init__ fuel env' (world (main env args)) conn = Some (c, w', tr) →
        w' = world (main env args)
        ∧ (∀ id, EvNewContext id ∉ tr)
        ∧ (c = Returned →
           outcomes tr = [EvClose (RawSock (fd conn))]
           ∨ outcomes tr = [EvSuperInit (SslSock (fd conn) 0)]).
Proof.
  intros Hserve Hon Hmode.
  destruct (main_serving env args Hserve)
    as (a & Hisdir & _ & _ & [[Hoff _]|(_ & ctx & Hid & Hw)]); [congruence|].
  pose proof (main_world_implicit env args) as Himp.
  destruct (configure_tls_flags args initial) as (Hi & _).
  rewrite Hisdir, Hi, Hmode, Hon in Himp. simpl in Himp.
  exists ctx. split; [by rewrite Hw|]. split; [done|].
  intros fuel env' conn c w' tr Hrun.
  assert (get_ssl_context env' (world (main env args))
          = (Some ctx, world (main env args), [])) as Hg.
  { apply get_ssl_context_hit. by rewrite Hw. }
  destruct (init_world _ _ _ _ _ _ _ Hrun)
    as [(-> & -> & ->)|(-> & -> & Hnew)].
  { split; [done|]. split; [intros id Hin; find_in Hin|done]. }
  rewrite Hg in Hnew. rewrite Hg. simpl in Hnew. cbn [fst snd].
  split; [done|]. split; [intros id Hin; apply Hnew in Hin; find_in Hin|].
  intros _.
  destruct (getpeername conn) as [peer|] eqn:Hpeer.
  2:{ unfold __init__ in Hrun. by rewrite Hpeer in Hrun. }
  destruct (handshake fuel env' (world (main env args)) conn)
    as [[[r w1] tr0]|] eqn:Hh.
  2:{ unfold __init__ in Hrun. by rewrite Hpeer, Himp, Hh in Hrun. }
  destruct (handshake_result _ _ _ _ _ _ _ Hh) as (_ & Ho0 & _ & Hsock).
  destruct (init_of_handshake _ _ _ _ _ _ _ _ Himp Hpeer Hh Ho0)
    as (tr' & Hrun' & Ho & _).
  rewrite Hrun in Hrun'. injection Hrun' as <- <-.
  destruct r as [e|s]; [by left|]. right.
  destruct (Hsock s eq_refl) as (ctx' & Hctx' & ->).
  rewrite Hg in Hctx'. injection Hctx' as <-. by rewrite Ho, Hid.
Qed.

(** The files are good at startup and gone when the client connects. *)
Lemma connections_use_the_startup_context_witness :
  ∃ tr,
    __init__ (H := openssl_1_0) 3 Samples.no_key
      (world (main (H := openssl_1_0) (Samples.machine Samples.good_files)
                (Samples.args (Some Implicit))))
      Samples.slow_client
    = Some (Returned,
            world (main (H := openssl_1_0) (Samples.machine Samples.good_files)
                     (Samples.args (Some Implicit))), tr)
    ∧ outcomes tr = [EvSuperInit (SslSock 8 0)]
    ∧ ∀ id, EvNewContext id ∉ tr.
Proof.
  destruct (connections_use_the_startup_context (H := openssl_1_0)
              (Samples.machine Samples.good_files)
              (Samples.args (Some Implicit)))
    as (ctx & _ & _ & Hconn).
  - apply (list_elem_of_lookup_2 _ 6). vm_compute. reflexivity.
  - reflexivity.
  - reflexivity.
  - assert (∃ tr,
      __init__ (H := openssl_1_0) 3 Samples.no_key
        (world (main (H := openssl_1_0) (Samples.machine Samples.good_files)
                  (Samples.args (Some Implicit))))
        Samples.slow_client
      = Some (Returned,
              world (main (H := openssl_1_0)
                       (Samples.machine Samples.good_files)
                       (Samples.args (Some Implicit))), tr)
      ∧ outcomes tr = [EvSuperInit (SslSock 8 0)]) as (tr & Hrun & Ho).
    { eexists. split; [vm_compute; reflexivity|]. vm_compute. reflexivity. }
    exists tr. split; [exact Hrun|]. split; [exact Ho|].
    exact (proj1 (proj2 (Hconn _ _ _ _ _ _ Hrun))).
Defined.

(** X11. Unless both files are given and the mode is implicit, the handler
    that [main] configures never negotiates TLS itself, required explicit
    TLS included: in any state with that class, for a connected peer, a
    call of [__init__] returns at once, whatever the fuel, having made no
    attempt and no wait and passed the accepted socket unchanged to
    [super().__init__]. With a context cached that is all it does. With a
    file missing, [super().__init__] tries to build a context on every
    connection: it allocates one, fails on the missing key path with a
    [TypeError] that is only printed, and leaves the class as it was. *)
Theorem other_modes_pass_the_socket_through `{OpenSSL}
    (env : Env) (args : Args.t) (fuel : nat) (env' : SSL.Env) (w : World)
    (conn : Conn) (peer : string) :
  tls_required args = false ∨ Args.ftps_mode args ≠ Some Implicit →
  klass w = klass (world (main env args)) →
  getpeername conn = Some peer →
  ∃ w' tr,
    __init__ fuel env' w conn = Some (Returned, w', tr)
    ∧ outcomes tr = [EvSuperInit (RawSock (fd conn))]
    ∧ attempts tr = []
    ∧ waits tr = 0
    ∧ (is_Some (_ssl_context (klass w)) →
       w' = w
       ∧ tr = [EvPrint MsgRule; EvPrint (MsgNewConnection peer);
               EvPrint MsgCallingSuper; EvSuperInit (RawSock (fd conn));
               EvPrint MsgSuperDone; EvPrint MsgFinalState; EvPrint MsgRule])
    ∧ (tls_required args = false →
       w' = {| klass := klass w; next_id := S (next_id w) |}
       ∧ tr = [EvPrint MsgRule; EvPrint (MsgNewConnection peer);
               EvPrint MsgCallingSuper; EvSuperInit (RawSock (fd conn));
               EvPrint MsgCreating; EvNewContext (next_id w);
               EvPrint (MsgContextError TypeError);
               EvPrint MsgSuperDone; EvPrint MsgFinalState; EvPrint MsgRule]).
Proof.
  intros Hmode Hklass Hpeer.
  assert (implicit_tls (klass w) = false) as Himp.
  { rewrite Hklass, main_world_implicit.
    destruct (configure_tls_flags args initial) as (-> & _).
    destruct (isdir env (Args.drive args)); [simpl|done].
    destruct Hmode as [->|Hmode]; [by destruct (Args.ftps_mode args) as [[]|]|].
    by destruct (Args.ftps_mode args) as [[]|]. }
  rewrite (init_plain _ _ _ _ _ Hpeer Himp).
  pose proof (get_ssl_context_quiet env' w) as Hq.
  pose proof (get_ssl_context_outcomes env' w) as Ho.
  destruct (get_ssl_context env' w) as [[r0 w0] evs] eqn:Hg.
  destruct (Hq _ _ _ eq_refl) as (Hquiet & _).
  eexists _, _. split; [done|]. cbn [fst snd] in *.
  split; [simpl; by rewrite outcomes_app, Ho|].
  split.
  { rewrite (attempts_quiet_l [_; _; _; _]) by done.
    rewrite attempts_quiet_l by done. done. }
  split.
  { rewrite !waits_app, (waits_quiet evs) by done.
    repeat rewrite waits_cons_quiet by done. done. }
  split.
  - intros [ctx Hctx]. rewrite (get_ssl_context_hit env' w ctx Hctx) in Hg.
    by injection Hg as <- <- <-.
  - intros Hoff.
    destruct (main_world_plain env args Hoff) as (Hkey & Hnone & _).
    rewrite <- Hklass in Hkey, Hnone.
    unfold get_ssl_context in Hg. rewrite Hnone in Hg.
    pose proof (build_error_no_key env' (klass w) Hkey) as Herr.
    apply (build_context_inl _ _ (next_id w)) in Herr. rewrite Herr in Hg.
    by injection Hg as <- <- <-.
Qed.

Lemma other_modes_pass_the_socket_through_witness :
  ∃ w' tr,
    __init__ (H := openssl_1_0) 0 Samples.good_files
      (world (main (H := openssl_1_0) (Samples.machine Samples.good_files)
                MoreSamples.plain_args))
      Samples.wants_write
    = Some (Returned, w', tr)
    ∧ outcomes tr = [EvSuperInit (RawSock 7)]
    ∧ next_id w' = 2
    ∧ EvPrint (MsgContextError TypeError) ∈ tr.
Proof.
  destruct (other_modes_pass_the_socket_through (H := openssl_1_0)
              (Samples.machine Samples.good_files) MoreSamples.plain_args
              0 Samples.good_files
              (world (main (H := openssl_1_0)
                        (Samples.machine Samples.good_files)
                        MoreSamples.plain_args))
              Samples.wants_write "10.0.0.2:50000")
    as (w' & tr & Hrun & Ho & _ & _ & _ & Hplain).
  - left. reflexivity.
  - reflexivity.
  - reflexivity.
  - destruct (Hplain eq_refl) as [-> ->].
    eexists _, _. split; [exact Hrun|]. split; [exact Ho|].
    split; [reflexivity|]. by apply (list_elem_of_lookup_2 _ 6).
Defined.

(** ** Accounts *)

Lemma truthy_Some (s : string) : truthy (Some s) = true ↔ s ≠ "".
Proof.
  simpl. destruct (String.eqb_spec s ""); simpl; split; congruence.
Qed.

(** X12. When both a user name and a password are given, non-empty, and
    the name is not [anonymous], the account is registered with that
    password, the canonical path of the served directory as home and the
    permissions ["elradfmw"]; the anonymous account is present exactly
    when [--allow-anonymous] is set, with the same home and permissions and
    an empty password; the registry holds nothing else. *)
Theorem full_credentials_are_registered
    (env : Env) (args : Args.t) (u p : string) :
  Args.user args = Some u →
  Args.password args = Some p →
  u ≠ "" → p ≠ "" → u ≠ "anonymous" →
  isdir env (Args.drive args) = true →
  ∃ a : DummyAuthorizer.t,
    build_authorizer env args = inr a
    ∧ DummyAuthorizer.user_table a !! u =
        Some {| DummyAuthorizer.pwd := p;
                DummyAuthorizer.home := realpath env (Args.drive args);
                DummyAuthorizer.perm := "elradfmw" |}
    ∧ DummyAuthorizer.user_table a !! "anonymous" =
        (if Args.allow_anonymous args
         then Some {| DummyAuthorizer.pwd := "";
                      DummyAuthorizer.home := realpath env (Args.drive args);
                      DummyAuthorizer.perm := "elradfmw" |}
         else None)
    ∧ ∀ name, name ≠ u → name ≠ "anonymous" →
        DummyAuthorizer.user_table a !! name = None.
Proof.
  intros Hu Hp Hune Hpne Hanon Hisdir.
  unfold build_authorizer. rewrite Hu, Hp.
  rewrite (proj2 (truthy_Some u) Hune), (proj2 (truthy_Some p) Hpne). simpl.
  unfold DummyAuthorizer.add_anonymous, DummyAuthorizer.add_user,
    DummyAuthorizer.has_user. simpl.
  rewrite lookup_empty, bool_decide_eq_false_2 by (by intros [? ?]).
  rewrite Hisdir. simpl.
  destruct (Args.allow_anonymous args).
  - simpl. rewrite lookup_insert_ne by done.
    rewrite lookup_empty, bool_decide_eq_false_2 by (by intros [? ?]).
    simpl. eexists. split; [done|]. simpl.
    split; [by rewrite lookup_insert_ne, lookup_insert_eq by done|].
    split; [by rewrite lookup_insert_eq|].
    intros name Hn1 Hn2. by rewrite !lookup_insert_ne, lookup_empty by done.
  - eexists. split; [done|]. simpl.
    split; [by rewrite lookup_insert_eq|].
    split; [by rewrite lookup_insert_ne, lookup_empty by done|].
    intros name Hn1 Hn2. by rewrite lookup_insert_ne, lookup_empty by done.
Qed.

(** The served path is a link to a share mounted elsewhere. *)
Lemma full_credentials_are_registered_witness :
  ∃ a : DummyAuthorizer.t,
    build_authorizer MoreSamples.linked MoreSamples.plain_args = inr a
    ∧ DummyAuthorizer.user_table a !! "alice"
        = Some {| DummyAuthorizer.pwd := "secret";
                  DummyAuthorizer.home := "/mnt/nas/share";
                  DummyAuthorizer.perm := "elradfmw" |}
    ∧ is_Some (DummyAuthorizer.user_table a !! "anonymous")
    ∧ DummyAuthorizer.user_table a !! "bob" = None.
Proof.
  destruct (full_credentials_are_registered
              MoreSamples.linked MoreSamples.plain_args "alice" "secret")
    as (a & Ha & Halice & Hanon & Hother); try done.
  exists a. split; [exact Ha|]. split; [exact Halice|].
  split; [rewrite Hanon; by eexists|]. by apply Hother.
Defined.

(** X13. A user named [anonymous] given with a password together with
    [--allow-anonymous] stops the startup: registering the anonymous
    account finds the name taken, the [ValueError] leaves [main], and
    neither a server nor a context has been made by then. *)
Theorem anonymous_user_clashes `{OpenSSL}
    (env : Env) (args : Args.t) (p : string) :
  Args.user args = Some "anonymous" →
  Args.password args = Some p → p ≠ "" →
  Args.allow_anonymous args = true →
  isdir env (Args.drive args) = true →
  build_authorizer env args = inl ValueError
  ∧ completion (main env args) = Raised ValueError
  ∧ server (main env args) = None
  ∧ trace (main env args) = [EvConfigLogging].
Proof.
  intros Hu Hp Hpne Hanon Hdir.
  assert (build_authorizer env args = inl ValueError) as Ha.
  { unfold build_authorizer. rewrite Hu, Hp, Hanon.
    rewrite (proj2 (truthy_Some p) Hpne). simpl.
    unfold DummyAuthorizer.add_anonymous, DummyAuthorizer.add_user,
      DummyAuthorizer.has_user. simpl.
    rewrite lookup_empty, bool_decide_eq_false_2 by (by intros [? ?]).
    rewrite Hdir. simpl. rewrite lookup_insert_eq.
    by rewrite bool_decide_eq_true_2 by (by eexists). }
  split; [done|]. unfold main. by rewrite Hdir, Ha.
Qed.

Lemma anonymous_user_clashes_witness :
  completion (main (H := openssl_1_0) (Samples.machine Samples.good_files)
                MoreSamples.anonymous_twice) = Raised ValueError.
Proof.
  apply (anonymous_user_clashes (H := openssl_1_0)
           (Samples.machine Samples.good_files) MoreSamples.anonymous_twice
           "guest"); done.
Defined.

(** ** The address probe *)

(** X14. The probe of [get_lan_ip] cannot keep the server from starting
    and changes nothing but [handler.lan_ip]: whatever the probe socket
    answers, also when connecting it or reading its name raises, [main]
    ends the same way with the same trace and the same server, and when the
    server is built [lan_ip] holds the probed address, or 127.0.0.1 when
    the probe failed. *)
Theorem lan_probe_only_sets_lan_ip `{OpenSSL}
    (env : Env) (args : Args.t) (ip : option string) :
  completion (main (with_getsockname ip env) args) = completion (main env args)
  ∧ trace (main (with_getsockname ip env) args) = trace (main env args)
  ∧ server (main (with_getsockname ip env) args) = server (main env args)
  ∧ (is_Some (server (main env args)) →
     lan_ip (klass (world (main env args))) =
       Some (default "127.0.0.1" (getsockname env))).
Proof.
  assert (∀ a id,
            build_context (ssl_env env) (configured env args a) id
            = build_context (ssl_env env) (configure_tls args initial) id)
    as Hext by (intros a id; by apply build_context_ext).
  assert (∀ a id,
            build_context (ssl_env env)
              (configured (with_getsockname ip env) args a) id
            = build_context (ssl_env env) (configure_tls args initial) id)
    as Hext' by (intros a id; by apply build_context_ext).
  unfold main. simpl.
  change (build_authorizer (with_getsockname ip env) args)
    with (build_authorizer env args).
  destruct (isdir env (Args.drive args)); simpl;
    [|repeat (split; [done|]); by intros [? ?]].
  destruct (build_authorizer env args) as [e|a]; simpl;
    [repeat (split; [done|]); by intros [? ?]|].
  fold (configured env args a).
  fold (configured (with_getsockname ip env) args a).
  assert (lan_ip (configured env args a)
          = Some (default "127.0.0.1" (getsockname env))) as Hlan.
  { simpl. unfold get_lan_ip. by destruct (getsockname env). }
  assert (_ssl_context (configured env args a) = None) as Hnone
    by apply configure_tls_no_context.
  assert (_ssl_context (configured (with_getsockname ip env) args a) = None)
    as Hnone' by apply configure_tls_no_context.
  assert (implicit_tls (configured (with_getsockname ip env) args a)
          = implicit_tls (configured env args a)) as Hi by done.
  assert (tls_control_required (configured (with_getsockname ip env) args a)
          = tls_control_required (configured env args a)) as Hc by done.
  pose proof (Hext a) as Hb. pose proof (Hext' a) as Hb'. clear Hext Hext'.
  remember (configured env args a) as h eqn:Hh in *. clear Hh.
  remember (configured (with_getsockname ip env) args a) as h' eqn:Hh' in *.
  clear Hh'.
  unfold ThreadedFTPServer, check_and_serve, get_ssl_context. simpl.
  rewrite Hnone, Hnone', !Hb, !Hb'.
  destruct (build_context (ssl_env env) (configure_tls args initial) 0);
    destruct (bind_ok env (Args.host args) (Args.port args)); simpl;
    rewrite ?Hnone, ?Hnone', ?Hi, ?Hc, ?Hb, ?Hb';
    try (repeat (split; [done|]); by intros [? ?]).
  - destruct (implicit_tls h || tls_control_required h); simpl.
    + destruct (build_context (ssl_env env) (configure_tls args initial) 1);
        simpl; by repeat (split; [done|]).
    + by repeat (split; [done|]).
  - destruct (implicit_tls h || tls_control_required h); simpl;
      by repeat (split; [done|]).
Qed.
